(** * hydra-python-agent: the Redis graph synchronisation layer

    A shallow embedding of [hydra_agent/redis_core/graphutils_operations.py]
    (class [GraphOperations]) together with the Python built-ins it relies
    on, followed by the properties of the synchronisation handlers. *)

From Stdlib Require Import String Ascii List ZArith Lia Bool Arith PeanoNat.
From Stdlib Require Import DecimalString.
Import ListNotations.
Open Scope list_scope.
Open Scope string_scope.
Set Warnings "-register-all".

(** ** Python strings *)

Module PyString.

(** The double quote character, used by [repr]. *)
Definition dquote : ascii := ascii_of_nat 34.
Definition squote : ascii := ascii_of_nat 39.
Definition backslash : ascii := ascii_of_nat 92.

Definition is_empty (s : string) : bool :=
  match s with EmptyString => true | String _ _ => false end.

(** [s.rstrip(c)] for a one-character argument. *)
Fixpoint rstrip (c : ascii) (s : string) : string :=
  match s with
  | EmptyString => EmptyString
  | String a r =>
      let r' := rstrip c r in
      if Ascii.eqb a c && is_empty r' then EmptyString else String a r'
  end.

(** [s.split(c)]: never returns the empty list. *)
Fixpoint split (c : ascii) (s : string) : list string :=
  match s with
  | EmptyString => [EmptyString]
  | String a r =>
      if Ascii.eqb a c then EmptyString :: split c r
      else match split c r with
           | h :: t => String a h :: t
           | [] => [String a EmptyString]
           end
  end.

(** [s.split(c, n)]: at most [n] cuts, the rest of the string is the last
    component. *)
Fixpoint split_max (c : ascii) (s : string) (n : nat) {struct s} : list string :=
  match n with
  | O => [s]
  | S n' =>
      match s with
      | EmptyString => [EmptyString]
      | String a r =>
          if Ascii.eqb a c then EmptyString :: split_max c r n'
          else match split_max c r n with
               | h :: t => String a h :: t
               | [] => [String a EmptyString]
               end
      end
  end.

(** [s.replace(old, new)] for a non-empty [old]: [skip] characters still belong
    to the occurrence of [old] that was just replaced. *)
Fixpoint replace_from (old new : string) (skip : nat) (s : string) : string :=
  match s with
  | EmptyString => EmptyString
  | String a r =>
      match skip with
      | S k => replace_from old new k r
      | O =>
          if String.prefix old s
          then new ++ replace_from old new (String.length old - 1) r
          else String a (replace_from old new 0 r)
      end
  end.

(** With an empty [old], Python inserts [new] before every character and at
    the end. *)
Fixpoint intersperse (new : string) (s : string) : string :=
  match s with
  | EmptyString => new
  | String a r => new ++ String a (intersperse new r)
  end.

Definition replace (old new s : string) : string :=
  if is_empty old then intersperse new s else replace_from old new 0 s.

(** [sub in s] on two strings. *)
Fixpoint contains (sub s : string) : bool :=
  String.prefix sub s ||
  match s with
  | EmptyString => false
  | String _ r => contains sub r
  end.

(** The last element of a list of strings, [l[-1]]. *)
Definition last_str (l : list string) : string := List.last l EmptyString.

Definition hex_digit (n : nat) : ascii :=
  if Nat.ltb n 10 then ascii_of_nat (48 + n) else ascii_of_nat (87 + n).

(** One character of [repr(s)], [q] being the quote that encloses it. *)
Definition repr_char (q : ascii) (a : ascii) : string :=
  let n := nat_of_ascii a in
  if Ascii.eqb a backslash then String backslash (String backslash EmptyString)
  else if Ascii.eqb a q then String backslash (String q EmptyString)
  else if Nat.eqb n 9 then String backslash "t"
  else if Nat.eqb n 10 then String backslash "n"
  else if Nat.eqb n 13 then String backslash "r"
  else if Nat.ltb n 32 || Nat.eqb n 127 || (Nat.ltb 127 n && Nat.ltb n 161)
          || Nat.eqb n 173
       then String backslash
              (String "x" (String (hex_digit (n / 16))
                                  (String (hex_digit (n mod 16)) EmptyString)))
  else String a EmptyString.

Fixpoint repr_body (q : ascii) (s : string) : string :=
  match s with
  | EmptyString => EmptyString
  | String a r => repr_char q a ++ repr_body q r
  end.

Fixpoint has_char (c : ascii) (s : string) : bool :=
  match s with
  | EmptyString => false
  | String a r => Ascii.eqb a c || has_char c r
  end.

(** [repr(s)]: single quotes unless the string holds a single quote and no
    double quote.  Strings are taken as sequences of code points below 256. *)
Definition repr_str (s : string) : string :=
  let q := if has_char squote s && negb (has_char dquote s) then dquote else squote in
  String q (repr_body q s ++ String q EmptyString).

Definition repr_int (z : Z) : string := NilZero.string_of_int (Z.to_int z).

Fixpoint join (sep : string) (l : list string) : string :=
  match l with
  | [] => EmptyString
  | [x] => x
  | x :: r => x ++ sep ++ join sep r
  end.

End PyString.

Import PyString.

(** ** Python values *)

(** The values a decoded JSON-LD document and [eval] of a stored property can
    hold.  A [dict] keeps its insertion order, which [str] shows. *)
Inductive pyval : Type :=
| PNone
| PBool (b : bool)
| PInt (z : Z)
| PStr (s : string)
| PList (l : list pyval)
| PDict (d : list (string * pyval)).

Definition dict := list (string * pyval).

Fixpoint py_repr (v : pyval) : string :=
  match v with
  | PNone => "None"
  | PBool true => "True"
  | PBool false => "False"
  | PInt z => repr_int z
  | PStr s => repr_str s
  | PList l => "[" ++ join ", " (map py_repr l) ++ "]"
  | PDict d =>
      "{" ++ join ", "
               ((fix items (d : list (string * pyval)) : list string :=
                   match d with
                   | [] => []
                   | (k, x) :: r => (repr_str k ++ ": " ++ py_repr x) :: items r
                   end) d) ++ "}"
  end.

(** [str(v)]: a string is itself, anything else is shown by [repr]. *)
Definition py_str (v : pyval) : string :=
  match v with
  | PStr s => s
  | _ => py_repr v
  end.

Definition is_str (v : pyval) : bool :=
  match v with PStr _ => true | _ => false end.

(** [d.get(k)] as an option. *)
Fixpoint dict_get {A : Type} (k : string) (d : list (string * A)) : option A :=
  match d with
  | [] => None
  | (k', v) :: r => if String.eqb k k' then Some v else dict_get k r
  end.

(** [d[k] = v]: an existing key keeps its place, a new key goes last. *)
Fixpoint dict_set {A : Type} (k : string) (v : A) (d : list (string * A))
  : list (string * A) :=
  match d with
  | [] => [(k, v)]
  | (k', v') :: r =>
      if String.eqb k k' then (k', v) :: r else (k', v') :: dict_set k v r
  end.

Definition numeric (v : pyval) : option Z :=
  match v with
  | PBool b => Some (Z.b2z b)
  | PInt z => Some z
  | _ => None
  end.

(** [a == b].  Booleans compare as the integers 0 and 1; two dicts are equal
    when they have the same keys with equal values, in any order. *)
Fixpoint py_eq (a b : pyval) {struct a} : bool :=
  match a with
  | PNone => match b with PNone => true | _ => false end
  | PBool x =>
      match numeric b with Some z => Z.eqb (Z.b2z x) z | None => false end
  | PInt x =>
      match numeric b with Some z => Z.eqb x z | None => false end
  | PStr x => match b with PStr y => String.eqb x y | _ => false end
  | PList la =>
      match b with
      | PList lb =>
          (fix all2 (la : list pyval) (lb : list pyval) : bool :=
             match la, lb with
             | [], [] => true
             | x :: ra, y :: rb => py_eq x y && all2 ra rb
             | _, _ => false
             end) la lb
      | _ => false
      end
  | PDict da =>
      match b with
      | PDict db =>
          Nat.eqb (length da) (length db) &&
          (fix sub (da : list (string * pyval)) : bool :=
             match da with
             | [] => true
             | (k, x) :: ra =>
                 match dict_get k db with
                 | Some y => py_eq x y && sub ra
                 | None => false
                 end
             end) da
      | _ => false
      end
  end.

(** [l.remove(x)] on a list that holds [x]: the first element equal to [x]
    goes. *)
Fixpoint remove_first (x : pyval) (l : list pyval) : list pyval :=
  match l with
  | [] => []
  | y :: r => if py_eq y x then r else y :: remove_first x r
  end.

(** ** The graph store behind [GraphUtils] *)

Module Graph.

Definition props := list (string * string).

Record node : Type := mkNode
  { n_key : nat; n_label : string; n_alias : string; n_props : props }.

Record edge : Type := mkEdge { e_rel : string; e_src : nat; e_dst : nat }.

(** Nodes handed to [add_node] wait in [g_pending] until [flush] sends them
    to the store. *)
Record graph : Type := mkGraph
  { g_next : nat;
    g_pending : list node;
    g_nodes : list node;
    g_edges : list edge }.

Definition empty : graph := mkGraph 0 [] [] [].

(** A predicate is a conjunction of equalities [key = 'value']. *)
Definition where_clause := list (string * string).

(** The attribute a predicate names: the property itself, or the JSON-LD
    keyword of that name ([id] is [@id], [type] is [@type]). *)
Definition attr (k : string) (p : props) : option string :=
  match dict_get k p with
  | Some v => Some v
  | None => dict_get ("@" ++ k) p
  end.

Definition holds (w : where_clause) (n : node) : bool :=
  forallb (fun kv => match attr (fst kv) (n_props n) with
                     | Some v => String.eqb v (snd kv)
                     | None => false
                     end) w.

(** The label of a match pattern: an empty pattern matches any node; the
    handlers write the collection label both as [:collection] and as
    [collection]. *)
Definition label_of (m : string) : option string :=
  match m with
  | EmptyString => None
  | String c r => if Ascii.eqb c ":" then Some r else Some m
  end.

Definition has_label (l : option string) (n : node) : bool :=
  match l with
  | None => true
  | Some x => String.eqb (n_label n) x
  end.

Definition selects (m : string) (w : where_clause) (n : node) : bool :=
  has_label (label_of m) n && holds w n.

(** Modelled from the spec: [GraphUtils] (graphutils.py) is not among the
    sources; §4.2 gives its contract.  [findAll(label?, predicate?)] returns
    the property maps of every matching node. *)
Definition find_all (m : string) (w : where_clause) (g : graph) : list props :=
  map n_props (filter (selects m w) (g_nodes g)).

(** Modelled from the spec: [findOne(label?, predicate?)], the first match or
    nothing (GraphUtils is not among the sources). *)
Definition find_one (m : string) (w : where_clause) (g : graph) : option props :=
  hd_error (find_all m w g).

(** Modelled from the spec: [upsertProperty], which assigns one property on
    every matching node and is a no-op when none matches (GraphUtils is not
    among the sources). *)
Definition set_property (m : string) (w : where_clause) (k v : string)
           (g : graph) : graph :=
  mkGraph (g_next g) (g_pending g)
          (map (fun n => if selects m w n
                         then mkNode (n_key n) (n_label n) (n_alias n)
                                     (dict_set k v (n_props n))
                         else n) (g_nodes g))
          (g_edges g).

(** Modelled from the spec: [createNode], which never checks that the id is
    new (GraphUtils is not among the sources). *)
Definition create_node (label alias : string) (p : props) (g : graph) : graph :=
  mkGraph (S (g_next g))
          (g_pending g ++ [mkNode (g_next g) label alias p])%list
          (g_nodes g) (g_edges g).

(** Modelled from the spec: [commit], after which the created nodes are
    visible to queries (GraphUtils is not among the sources). *)
Definition commit (g : graph) : graph :=
  mkGraph (g_next g) [] (g_nodes g ++ g_pending g)%list (g_edges g).

Definition key_in (k : nat) (l : list node) : bool :=
  existsb (fun n => Nat.eqb (n_key n) k) l.

(** Modelled from the spec: [deleteNode], which removes the matching nodes
    and their incident edges (GraphUtils is not among the sources). *)
Definition delete_nodes (m : string) (w : where_clause) (g : graph) : graph :=
  let gone := filter (selects m w) (g_nodes g) in
  mkGraph (g_next g) (g_pending g)
          (filter (fun n => negb (selects m w n)) (g_nodes g))
          (filter (fun e => negb (key_in (e_src e) gone || key_in (e_dst e) gone))
                  (g_edges g)).

(** Modelled from the spec: [createEdge], one edge between the first source
    and the first destination that match, and the number of edges created
    (GraphUtils is not among the sources). *)
Definition create_edge (rel : string) (lsrc : string) (wsrc : where_clause)
           (ldst : string) (wdst : where_clause) (g : graph) : graph * nat :=
  match filter (selects lsrc wsrc) (g_nodes g),
        filter (selects ldst wdst) (g_nodes g) with
  | s :: _, d :: _ =>
      (mkGraph (g_next g) (g_pending g) (g_nodes g)
               (g_edges g ++ [mkEdge rel (n_key s) (n_key d)])%list, 1)
  | _, _ => (g, 0)
  end.

End Graph.

Import Graph.

(** ** Exceptions, the world and the handler monad *)

Inductive exn : Type :=
| KeyError (k : string)
| TypeError
| ValueError
| AttributeError
| IndexError
| SyntaxError
| NameError
| PyException (msg : string).

Inductive outcome (A : Type) : Type :=
| Ok (a : A)
| Raise (e : exn).

Arguments Ok {A} a.
Arguments Raise {A} e.

(** What a handler can touch: the graph store, the dict object the caller
    passed as [resource] / [new_object] / [updated_object] (the handlers write
    into that very object), and the log. *)
Record world : Type := mkWorld
  { store : graph; obj : dict; log : list string }.

Definition M (A : Type) : Type := world -> world * outcome A.

Definition ret {A : Type} (a : A) : M A := fun w => (w, Ok a).

Definition raise {A : Type} (e : exn) : M A := fun w => (w, Raise e).

Definition bind {A B : Type} (m : M A) (k : A -> M B) : M B :=
  fun w => match m w with
           | (w', Ok a) => k a w'
           | (w', Raise e) => (w', Raise e)
           end.

Notation "x <- m ;; k" := (bind m (fun x => k))
  (at level 61, m at next level, right associativity).
Notation "m ;;; k" := (bind m (fun _ => k))
  (at level 61, right associativity).

Definition lift {A : Type} (o : outcome A) : M A := fun w => (w, o).

Definition get_store : M graph := fun w => (w, Ok (store w)).

Definition put_store (g : graph) : M unit :=
  fun w => (mkWorld g (obj w) (log w), Ok tt).

Definition get_obj : M dict := fun w => (w, Ok (obj w)).

Definition put_obj (d : dict) : M unit :=
  fun w => (mkWorld (store w) d (log w), Ok tt).

Definition logger_info (msg : string) : M unit :=
  fun w => (mkWorld (store w) (obj w) (log w ++ [msg])%list, Ok tt).

(** [v[k]] for a string key. *)
Definition subscript (v : pyval) (k : string) : outcome pyval :=
  match v with
  | PDict d => match dict_get k d with
               | Some x => Ok x
               | None => Raise (KeyError k)
               end
  | _ => Raise TypeError
  end.

(** [resource[k]] on the caller's object. *)
Definition item (k : string) : M pyval :=
  d <- get_obj ;; lift (subscript (PDict d) k).

(** The right operand of [str + v]: anything but a string is a TypeError. *)
Definition as_str (v : pyval) : outcome string :=
  match v with
  | PStr s => Ok s
  | _ => Raise TypeError
  end.

(** [x in v] for a string [x]. *)
Definition py_in (x : string) (v : pyval) : outcome bool :=
  match v with
  | PStr s => Ok (contains x s)
  | PList l => Ok (existsb (fun y => py_eq y (PStr x)) l)
  | PDict d => Ok (match dict_get x d with Some _ => true | None => false end)
  | _ => Raise TypeError
  end.

(** [l.append(x)]: only a list has the method. *)
Definition py_append (v x : pyval) : outcome pyval :=
  match v with
  | PList l => Ok (PList (l ++ [x])%list)
  | _ => Raise AttributeError
  end.

Definition dict_of_props (p : props) : pyval :=
  PDict (map (fun kv => (fst kv, PStr (snd kv))) p).

(** The [GraphUtils] calls, as actions on the world. *)

(** Modelled from the spec: [read] (GraphUtils is not among the sources), as
    the handlers call it with a predicate on the id.  It returns the property
    maps of the matching nodes as a list, which is how [get_resource] uses
    the result ([len(resource) == 1], [resource[0]]), and [None] when no node
    matches (§4.2: absence is a normal outcome; [get_resource] tests
    [resource is not None]). *)
Definition gu_read (m : string) (w : where_clause) : M (option (list props)) :=
  g <- get_store ;;
  ret (match find_all m w g with
       | [] => None
       | l => Some l
       end).

(** Modelled from the spec: [read] as [get_resource] calls it for a type and
    filters, which returns the full sequence of the matches, possibly empty
    (§4.5; GraphUtils is not among the sources). *)
Definition gu_read_all (m : string) (w : where_clause) : M (list props) :=
  g <- get_store ;; ret (find_all m w g).

Definition gu_update (m : string) (w : where_clause) (k v : string) : M unit :=
  g <- get_store ;; put_store (set_property m w k v g).

Definition gu_delete (w : where_clause) : M unit :=
  g <- get_store ;; put_store (delete_nodes "" w g).

Definition gu_add_node (label alias : string) (p : props) : M unit :=
  g <- get_store ;; put_store (create_node label alias p g).

Definition gu_flush : M unit :=
  g <- get_store ;; put_store (commit g).

Definition gu_create_relation (lsrc : string) (wsrc : where_clause)
           (rel : string) (ldst : string) (wdst : where_clause) : M nat :=
  g <- get_store ;;
  let r := create_edge rel lsrc wsrc ldst wdst g in
  put_store (fst r) ;;; ret (snd r).

(** ** The API documentation and the agent's configuration *)

Record HydraClass : Type := mkHydraClass
  { id_ : string;                       (* class_def['class'].id_ *)
    supportedProperty : list string }.  (* the [prop] of each supported property *)

(** [api_doc.doc_url] is an object whose own [doc_url] is the vocabulary URL;
    [api_doc.doc_name] is the vocabulary prefix. *)
Record HydraDoc : Type := mkHydraDoc
  { doc_url : string;
    doc_name : string;
    parsed_classes : list (string * HydraClass) }.

Record GraphOperations : Type := mkGraphOperations
  { entrypoint_url : string; api_doc : HydraDoc }.

Definition complete_vocabulary_url (self : GraphOperations) : string :=
  doc_url (api_doc self).

Definition vocabulary (self : GraphOperations) : string :=
  doc_name (api_doc self).

Record InitialGraph : Type := mkInitialGraph
  { collection_endpoints : list string; class_endpoints : list string }.

Definition mem (x : string) (l : list string) : bool :=
  existsb (String.eqb x) l.

(** [url.rstrip('/').replace(self.entrypoint_url, "EntryPoint").split('/')] *)
Definition url_segments (self : GraphOperations) (url : string) : list string :=
  split "/" (replace (entrypoint_url self) "EntryPoint" (rstrip "/" url)).

(** ['/' + url.split('/', 3)[-1]] *)
Definition url_object_id (url : string) : string :=
  "/" ++ last_str (split_max "/" url 3).

(** The loop of [get_processing] that turns every value that is not a string
    into its [str]. *)
Definition stringify (d : dict) : dict :=
  map (fun kv => (fst kv, if is_str (snd kv) then snd kv
                          else PStr (py_str (snd kv)))) d.

Definition props_of_dict (d : dict) : props :=
  map (fun kv => (fst kv, py_str (snd kv))) d.

(** The embedded resources of a class: its supported properties whose [prop]
    is the id of a documented class. *)
Definition embedded_of (parent_id parent_type : pyval) (class_uris : list string)
           (supported : list string) : list pyval :=
  map (fun p => PDict [("parent_id", parent_id); ("parent_type", parent_type);
                       ("embedded_url", PStr p)])
      (filter (fun p => mem p class_uris) supported).

(** The loop of [delete_processing] over [collection_members], which removes
    from the list it walks: [i] is the iterator's index, and an element that
    slides into a freed place is never visited.  [fuel] bounds the walk; the
    length of the list is enough. *)
Fixpoint remove_matching (fuel i : nat) (resource_id : string) (l : list pyval)
  : outcome (list pyval) :=
  match fuel with
  | O => Ok l
  | S f =>
      match nth_error l i with
      | None => Ok l
      | Some member =>
          match subscript member "@id" with
          | Raise e => Raise e
          | Ok v =>
              match py_in resource_id v with
              | Raise e => Raise e
              | Ok true => remove_matching f (S i) resource_id (remove_first member l)
              | Ok false => remove_matching f (S i) resource_id l
              end
          end
      end
  end.

(** [for member in v: ...] for whatever [eval] gave: a list is walked, an
    empty string or dict has nothing to walk, their elements are strings and
    cannot be subscripted by ['@id'], and nothing else is iterable. *)
Definition filter_members (resource_id : string) (v : pyval) : outcome pyval :=
  match v with
  | PList l =>
      match remove_matching (length l) 0 resource_id l with
      | Ok l' => Ok (PList l')
      | Raise e => Raise e
      end
  | PStr EmptyString => Ok v
  | PDict [] => Ok v
  | _ => Raise TypeError
  end.

Section Handlers.

(** The built-in [eval], applied to the text of a stored property. *)
Variable py_eval : string -> outcome pyval.

(** [if k not in found: [] else: eval(found[k])] on what [read] returned.
    On [None] the test is a TypeError.  On a list the test compares [k] with
    the elements, which are property maps; should it succeed, the list would
    then be subscripted by a string. *)
Definition read_property (found : option (list props)) (k : string) : M pyval :=
  match found with
  | None => raise TypeError
  | Some l =>
      let result := PList (map dict_of_props l) in
      present <- lift (py_in k result) ;;
      if negb present then ret (PList [])
      else
        txt <- lift (subscript result k) ;;
        match txt with
        | PStr t => lift (py_eval t)
        | _ => raise TypeError
        end
  end.

Definition get_processing (self : GraphOperations) (url : string) : M pyval :=
  let url_list := url_segments self url in
  if Nat.eqb (length url_list) 6 then
    let resource_endpoint := nth 4 url_list EmptyString in
    let resource_id := nth 5 url_list EmptyString in
    let redis_resource_parent_id :=
      complete_vocabulary_url self ++ "EntryPoint/" ++ resource_endpoint in
    found <- gu_read "" [("id", redis_resource_parent_id)] ;;
    class_instances <- read_property found "instances" ;;
    r_id <- item "@id" ;;
    r_type <- item "@type" ;;
    let resource_to_append := PDict [("@id", r_id); ("@type", r_type)] in
    class_instances <- lift (py_append class_instances resource_to_append) ;;
    gu_update "" [("id", redis_resource_parent_id)]
              "instances" (py_str class_instances) ;;;
    resource <- get_obj ;;
    put_obj (stringify resource) ;;;
    r_type <- item "@type" ;;
    r_type <- lift (as_str r_type) ;;
    resource <- get_obj ;;
    gu_add_node ("objects" ++ r_type) (r_type ++ resource_id)
                (props_of_dict resource) ;;;
    gu_flush ;;;
    r_id <- item "@id" ;;
    r_id <- lift (as_str r_id) ;;
    gu_create_relation "classes" [("type", resource_endpoint)]
                       ("has_" ++ r_type)
                       ("objects" ++ r_type) [("id", r_id)] ;;;
    class_doc <- match dict_get r_type (parsed_classes (api_doc self)) with
                 | Some c => ret c
                 | None => raise (KeyError r_type)
                 end ;;
    let class_uris := map (fun kc => id_ (snd kc)) (parsed_classes (api_doc self)) in
    ret (PList (embedded_of (PStr r_id) (PStr r_type) class_uris
                            (supportedProperty class_doc)))
  else if Nat.eqb (length url_list) 2 then
    let entrypoint := nth 0 url_list EmptyString in
    let resource_endpoint := nth 1 url_list EmptyString in
    let redis_collection_id :=
      vocabulary self ++ ":" ++ entrypoint ++ "/" ++ resource_endpoint in
    members <- item "members" ;;
    gu_update "collection" [("id", redis_collection_id)]
              "members" (py_str members) ;;;
    ret (PList [])
  else
    logger_info "No modification to Redis was made" ;;;
    ret PNone.

Definition delete_processing (self : GraphOperations) (url : string) : M pyval :=
  let object_id := url_object_id url in
  gu_delete [("id", object_id)] ;;;
  match url_segments self url with
  | [entrypoint; resource_endpoint; resource_id] =>
      let redis_collection_id :=
        vocabulary self ++ ":" ++ entrypoint ++ "/" ++ resource_endpoint in
      found <- gu_read ":collection" [("id", redis_collection_id)] ;;
      collection_members <- read_property found "members" ;;
      collection_members <- lift (filter_members resource_id collection_members) ;;
      gu_update "collection" [("id", redis_collection_id)]
                "members" (py_str collection_members) ;;;
      ret PNone
  | _ => raise ValueError
  end.

Definition put_processing (self : GraphOperations) (url : string) : M pyval :=
  new_object <- get_obj ;;
  put_obj (dict_set "@id" (PStr (url_object_id url)) new_object) ;;;
  embedded_resources <- get_processing self url ;;
  ret embedded_resources.

Definition post_processing (self : GraphOperations) (url : string) : M pyval :=
  updated_object <- get_obj ;;
  put_obj (dict_set "@id" (PStr (url_object_id url)) updated_object) ;;;
  delete_processing self url ;;;
  embedded_resources <- get_processing self url ;;
  ret embedded_resources.

(** [not x] for an optional string argument. *)
Definition falsy (x : option string) : bool :=
  match x with
  | None => true
  | Some s => is_empty s
  end.

Definition text_of (x : option string) : string :=
  match x with
  | None => EmptyString
  | Some s => s
  end.

(** [l[-2]] *)
Definition second_last (l : list string) : outcome string :=
  match rev l with
  | _ :: x :: _ => Ok x
  | _ => Raise IndexError
  end.

Definition get_resource (self : GraphOperations) (url : option string)
           (initial_graph : option InitialGraph) (resource_type : option string)
           (filters : dict) : M pyval :=
  if falsy url && falsy resource_type then
    raise (PyException "ERR: You should set at leasturl OR resource_type")
  else if negb (falsy url) then
    let url_aux := rstrip "/" (text_of url) in
    let url_list := split "/" url_aux in
    let last_segment := last_str url_list in
    match initial_graph with
    | None => raise AttributeError
    | Some ig =>
        if mem last_segment (collection_endpoints ig) then ret PNone
        else
          prev <- lift (second_last url_list) ;;
          if mem prev (collection_endpoints ig) then ret PNone
          else if mem prev (class_endpoints ig) then
            let object_id := "/" ++ last_segment in
            resource <- gu_read "" [("id", object_id)] ;;
            match resource with
            | Some [p] => ret (dict_of_props p)
            | _ => ret PNone
            end
          else ret PNone
    end
  else if negb (falsy resource_type) then
    let where_filter := map (fun kv => (fst kv, py_str (snd kv))) filters in
    resource <- gu_read_all (":objects" ++ text_of resource_type) where_filter ;;
    ret (PList (map dict_of_props resource))
  else
    logger_info "get_resource failed and couldn't fetch Redis" ;;;
    ret PNone.

Definition newline : string := String (ascii_of_nat 10) EmptyString.

Definition link_resources (self : GraphOperations)
           (parent_id parent_type node_url : string) : M pyval :=
  resource <- get_resource self (Some node_url) None None [] ;;
  match resource with
  | PNone =>
      logger_info (newline ++ " Embedded link " ++ node_url ++ "cannot be fetched") ;;;
      ret (PStr (newline ++ " Embedded link " ++ node_url ++ "cannot be fetched"))
  | _ =>
      r_type <- lift (subscript resource "@type") ;;
      r_type <- lift (as_str r_type) ;;
      r_id <- lift (subscript resource "@id") ;;
      r_id <- lift (as_str r_id) ;;
      response <- gu_create_relation ("objects" ++ parent_type) [("id", parent_id)]
                                     ("has_" ++ r_type)
                                     ("objects" ++ r_type) [("id", r_id)] ;;
      ret (PStr (repr_int (Z.of_nat response)))
  end.

End Handlers.

(** The id of the node whose [instances] the member branch of
    [get_processing] maintains. *)
Definition owning_collection_id (self : GraphOperations) (url : string) : string :=
  complete_vocabulary_url self ++ "EntryPoint/"
    ++ nth 4 (url_segments self url) EmptyString.

(** ** A concrete agent and store, used to run the handlers *)

Module Scenario.

(** [eval] on the texts that [str] produced from the values of [tbl]; any
    other text is a SyntaxError. *)
Fixpoint eval_table (tbl : list pyval) (s : string) : outcome pyval :=
  match tbl with
  | [] => Raise SyntaxError
  | v :: r => if String.eqb (py_repr v) s then Ok v else eval_table r s
  end.

Definition drone_class : HydraClass :=
  mkHydraClass "vocab:Drone" ["http://schema.org/name"; "vocab:State"].

Definition state_class : HydraClass :=
  mkHydraClass "vocab:State" ["http://schema.org/speed"].

Definition doc : HydraDoc :=
  mkHydraDoc "http://localhost:8080/api/vocab#" "vocab"
             [("Drone", drone_class); ("State", state_class)].

(** An agent whose entrypoint is a prefix of the URLs it is given. *)
Definition agent : GraphOperations :=
  mkGraphOperations "http://localhost:8080/api" doc.

(** An agent whose entrypoint does not occur in the URLs it is given, so that
    a member URL keeps its six segments. *)
Definition far_agent : GraphOperations :=
  mkGraphOperations "http://hydrus:8080/serverapi" doc.

Definition initial_graph : InitialGraph :=
  mkInitialGraph ["DroneCollection"] ["Drone"; "State"].

Definition ref (i : string) : pyval :=
  PDict [("@id", PStr i); ("@type", PStr "Drone")].

Definition class_node : node :=
  mkNode 0 "classes" "Drone" [("type", "Drone")].

(** The collection node that [delete_processing] and the collection branch of
    [get_processing] address. *)
Definition collection_node (members : list pyval) : node :=
  mkNode 1 "collection" "Drone"
         [("id", "vocab:EntryPoint/Drone"); ("members", py_repr (PList members))].

(** The node that the member branch of [get_processing] addresses. *)
Definition parent_node (instances : list pyval) : node :=
  mkNode 2 "collection" "DroneInstances"
         [("id", "http://localhost:8080/api/vocab#EntryPoint/Drone");
          ("instances", py_repr (PList instances))].

Definition drone_node (k : nat) (i name : string) : node :=
  mkNode k "objectsDrone" ("Drone" ++ name)
         [("@id", i); ("@type", "Drone"); ("name", name)].

Definition world_of (nodes : list node) (payload : dict) : world :=
  mkWorld (mkGraph 10 [] nodes []) payload [].

(** A URL of four segments: neither a member nor a collection for any
    handler. *)
Definition status_url : string := "http://localhost:8080/api/Drone/1/status".

Definition status_world : world :=
  world_of [class_node; drone_node 3 "/api/Drone/1/status" "X1"]
           [("name", PStr "X1")].

Definition member_url : string := "http://localhost:8080/api/Drone/1".

(** A store with the class and the collection of drones, and a payload that
    the server has not given an id yet. *)
Definition create_world : world :=
  world_of [class_node; parent_node []]
           [("@type", PStr "Drone"); ("name", PStr "X1")].

(** The members of the drone collection, as the server listed them. *)
Definition two_members : list pyval := [ref "/api/Drone/12"; ref "/api/Drone/1"].

Definition delete_world : world :=
  world_of [class_node; collection_node two_members;
            drone_node 3 "/api/Drone/1" "X1"; drone_node 4 "/api/Drone/12" "X12"]
           [].

(** A store in which [/api/Drone/1] was never synchronised. *)
Definition never_synced_world : world :=
  world_of [class_node; collection_node [ref "/api/Drone/12"];
            drone_node 4 "/api/Drone/12" "X12"]
           [].

Definition drone_v1 : dict :=
  [("@id", PStr "/api/Drone/1"); ("@type", PStr "Drone");
   ("name", PStr "X1"); ("model", PStr "A")].

Definition drone_v2 : dict :=
  [("@id", PStr "/api/Drone/1"); ("@type", PStr "Drone"); ("name", PStr "X2")].

(** The round-trip example of the spec, with the id as the spec writes it. *)
Definition drone_spec : dict :=
  [("@id", PStr "/Drone/1"); ("@type", PStr "Drone"); ("name", PStr "X1")].

Definition eval_refs : string -> outcome pyval :=
  eval_table [PList []; PList [ref "/api/Drone/12"]; PList two_members;
              PList [ref "/api/Drone/1"]; PList [ref "/Drone/1"]].

Definition sync_world (payload : dict) : world :=
  world_of [class_node; parent_node []; collection_node []] payload.

(** The world after [get_processing] of [payload] at the member URL. *)
Definition after_read (payload : dict) : world :=
  fst (get_processing eval_refs far_agent member_url (sync_world payload)).

Definition with_payload (w : world) (payload : dict) : world :=
  mkWorld (store w) payload (log w).

(** The [members] that the drone collection node holds in a world. *)
Definition members_text (w : world) : option string :=
  match find_one ":collection" [("id", "vocab:EntryPoint/Drone")] (store w) with
  | Some p => dict_get "members" p
  | None => None
  end.

(** A collection that already has one instance, and the [eval] for the
    texts written while a second one is read. *)
Definition grow_world : world :=
  world_of [class_node; parent_node [ref "/api/Drone/12"]] drone_v1.

Definition eval_grow : string -> outcome pyval :=
  eval_table [PList [ref "/api/Drone/12"];
              PList [ref "/api/Drone/12"; ref "/api/Drone/1"]].

End Scenario.

(** ** Predicates on worlds and handlers *)

(** Every node of [g] either was there before (its key is in [known]) or
    carries [i] as its ['@id']. *)
Definition only_new_id (known : list nat) (i : string) (g : graph) : Prop :=
  forall n : node,
    In n (g_nodes g ++ g_pending g)%list ->
    In (n_key n) known \/ dict_get "@id" (n_props n) = Some i.

(** What the two handlers keep true of the world from the moment the id is
    written into the payload. *)
Definition id_written (known : list nat) (i : string) (keys : list string)
           (w : world) : Prop :=
  dict_get "@id" (obj w) = Some (PStr i)
  /\ map fst (obj w) = keys
  /\ only_new_id known i (store w).

(** A handler keeps [P] true, whether it returns or raises. *)
Definition preserves {A : Type} (P : world -> Prop) (m : M A) : Prop :=
  forall w : world, P w -> P (fst (m w)).

(** A handler leaves the world as it found it. *)
Definition readonly {A : Type} (m : M A) : Prop :=
  forall w : world, fst (m w) = w.

(** ** The member branch of [get_processing], step by step *)

(** The reference that the member branch appends to [instances]. *)
Definition member_reference (r_id r_type : pyval) : pyval :=
  PDict [("@id", r_id); ("@type", r_type)].

(** The store that the member branch leaves when nothing fails before its
    first write: [instances] rewritten on the owning node, the node of the
    resource created and committed, the edge from its class asked for. *)
Definition member_store (self : GraphOperations) (url : string) (g : graph)
           (payload : dict) (r_id r_type : pyval) : graph :=
  let resource_endpoint := nth 4 (url_segments self url) EmptyString in
  let resource_id := nth 5 (url_segments self url) EmptyString in
  fst (create_edge ("has_" ++ py_str r_type)
         "classes" [("type", resource_endpoint)]
         ("objects" ++ py_str r_type) [("id", py_str r_id)]
         (commit
            (create_node ("objects" ++ py_str r_type)
               (py_str r_type ++ resource_id)
               (props_of_dict (stringify payload))
               (set_property "" [("id", owning_collection_id self url)]
                  "instances"
                  (py_repr (PList [member_reference r_id r_type]))
                  g)))).

(** What the member branch returns once the node is stored: the embedded
    resources of the class, or a KeyError when the class is not documented. *)
Definition member_outcome (self : GraphOperations) (r_id r_type : pyval)
  : outcome pyval :=
  match dict_get (py_str r_type) (parsed_classes (api_doc self)) with
  | Some class_doc =>
      Ok (PList (embedded_of (PStr (py_str r_id)) (PStr (py_str r_type))
                   (map (fun kc => id_ (snd kc)) (parsed_classes (api_doc self)))
                   (supportedProperty class_doc)))
  | None => Raise (KeyError (py_str r_type))
  end.

(** The id of the collection node that the collection branch of
    [get_processing] addresses. *)
Definition collection_id (self : GraphOperations) (url : string) : string :=
  vocabulary self ++ ":" ++ nth 0 (url_segments self url) EmptyString
    ++ "/" ++ nth 1 (url_segments self url) EmptyString.

(** [g] holds no node, pending node or edge that [g0] does not hold, and a
    node of [g] differs from the node of [g0] it comes from in the property
    [key] at most. *)
Definition only_property_changed (key : string) (g0 g : graph) : Prop :=
  g_next g = g_next g0
  /\ g_pending g = g_pending g0
  /\ incl (g_edges g) (g_edges g0)
  /\ forall n' : node,
      In n' (g_nodes g) ->
      exists n : node,
        In n (g_nodes g0)
        /\ n_key n' = n_key n
        /\ n_label n' = n_label n
        /\ n_alias n' = n_alias n
        /\ forall k : string,
            k <> key -> dict_get k (n_props n') = dict_get k (n_props n).

(** [g] still holds every edge of [g0] and, for every node of [g0], a node
    of the same key, label and alias whose properties other than
    [instances] and [members] are the same. *)
Definition nothing_removed (g0 g : graph) : Prop :=
  incl (g_edges g0) (g_edges g)
  /\ forall n : node,
      In n (g_nodes g0) ->
      exists n' : node,
        In n' (g_nodes g)
        /\ n_key n' = n_key n
        /\ n_label n' = n_label n
        /\ n_alias n' = n_alias n
        /\ forall k : string,
            k <> "instances" -> k <> "members" ->
            dict_get k (n_props n') = dict_get k (n_props n).

(** ** Further worlds to run the handlers in *)

Module Cases.

Import Scenario.

(** A resource whose class the API documentation does not know. *)
Definition robot : dict :=
  [("@id", PStr "/api/Robot/1"); ("@type", PStr "Robot"); ("speed", PInt 3)].

Definition robot_world : world :=
  world_of [class_node; parent_node [ref "/api/Drone/12"]] robot.

(** A store without the node that owns the instances of the drones. *)
Definition no_owner_world : world := world_of [class_node] drone_v1.

Definition collection_url : string := "http://localhost:8080/api/Drone".

Definition listed : pyval := PList [ref "/api/Drone/1"; ref "/api/Drone/2"].

Definition collection_world : world :=
  world_of [class_node; collection_node [ref "/api/Drone/12"]]
           [("@type", PStr "Collection"); ("members", listed)].

Definition no_members_world : world :=
  world_of [class_node; collection_node []] [("@type", PStr "Collection")].

(** A collection none of whose members has a ['1'] in its id. *)
Definition unrelated : list pyval := [ref "/api/Drone/2"; ref "/api/Drone/3"].

Definition unrelated_world : world :=
  world_of [class_node; collection_node unrelated;
            drone_node 3 "/api/Drone/1" "X1"] [].

Definition eval_unrelated : string -> outcome pyval :=
  eval_table [PList unrelated].

(** A payload whose id is a slash and the last segment of the member URL. *)
Definition short_id_drone : dict :=
  [("@id", PStr "/1"); ("@type", PStr "Drone"); ("name", PStr "X1");
   ("height", PInt 7)].

Definition short_id_world : world :=
  world_of [class_node; parent_node []] short_id_drone.

Definition three_drones : world :=
  world_of [class_node; drone_node 3 "/api/Drone/1" "X1";
            drone_node 4 "/api/Drone/2" "X2"; drone_node 5 "/api/Drone/3" "X3"]
           [].

(** The [instances] that the node owning the drones holds in a world. *)
Definition instances_text (w : world) : option string :=
  match find_one "" [("id", "http://localhost:8080/api/vocab#EntryPoint/Drone")]
                 (store w) with
  | Some p => dict_get "instances" p
  | None => None
  end.

End Cases.

(** ** Properties of the handlers *)

#[local] Arguments set_property : simpl never.
#[local] Arguments create_node : simpl never.
#[local] Arguments commit : simpl never.
#[local] Arguments delete_nodes : simpl never.
#[local] Arguments create_edge : simpl never.
#[local] Arguments find_one : simpl never.
#[local] Arguments find_all : simpl never.
#[local] Arguments read_property : simpl never.
#[local] Arguments stringify : simpl never.
#[local] Arguments props_of_dict : simpl never.

Ltac run :=
  unfold bind, ret, raise, lift, get_store, put_store, get_obj, put_obj,
    logger_info, item, gu_read, gu_read_all, gu_update, gu_delete,
    gu_add_node, gu_flush, gu_create_relation in *; simpl in *.

Example split_url :
  split "/" "http://localhost:8080/api/Drone/1"
  = ["http:"; ""; "localhost:8080"; "api"; "Drone"; "1"].
Proof. reflexivity. Qed.

Example split_max_url :
  split_max "/" "http://localhost:8080/api/Drone/1" 3
  = ["http:"; ""; "localhost:8080"; "api/Drone/1"].
Proof. reflexivity. Qed.

Example replace_url :
  replace "http://localhost:8080/api" "EntryPoint"
          (rstrip "/" "http://localhost:8080/api/Drone/1//")
  = "EntryPoint/Drone/1".
Proof. reflexivity. Qed.

Example repr_refs :
  py_repr (PList [PDict [("@id", PStr "/Drone/1"); ("@type", PStr "Drone")]])
  = "[{'@id': '/Drone/1', '@type': 'Drone'}]".
Proof. reflexivity. Qed.

Section Shapes.

Variable py_eval : string -> outcome pyval.
Variable self : GraphOperations.

(** A URL that [get_processing] takes neither for a member nor for a
    collection only leaves a line in the log. *)
Lemma get_processing_unsupported (url : string) (w : world) :
  length (url_segments self url) <> 6 ->
  length (url_segments self url) <> 2 ->
  get_processing py_eval self url w
  = (mkWorld (store w) (obj w)
             (log w ++ ["No modification to Redis was made"])%list,
     Ok PNone).
Proof.
  intros H6 H2. unfold get_processing.
  apply Nat.eqb_neq in H6. apply Nat.eqb_neq in H2.
  rewrite H6, H2. reflexivity.
Qed.

(** [delete_processing] removes the nodes first and unpacks the URL
    afterwards: with anything but three segments the unpacking fails. *)
Lemma delete_processing_bad_shape (url : string) (w : world) :
  length (url_segments self url) <> 3 ->
  delete_processing py_eval self url w
  = (mkWorld (delete_nodes "" [("id", url_object_id url)] (store w))
             (obj w) (log w),
     Raise ValueError).
Proof.
  intros H3. unfold delete_processing. run.
  destruct (url_segments self url) as [| a [| b [| c [| d r]]]];
    simpl in *; try reflexivity.
  congruence.
Qed.

End Shapes.

(** *** What the handlers make of the result of [read] *)

(** A string is never an element of a list of property maps. *)
Lemma string_not_in_maps (k : string) (l : list props) :
  py_in k (PList (map dict_of_props l)) = Ok false.
Proof.
  simpl. f_equal. induction l as [| p l IH]; simpl; [reflexivity | exact IH].
Qed.

(** On the list that [read] returns, ['key' not in ...] always holds: the
    sequence starts from the empty list and the stored text is never
    evaluated.  Only [None] makes the test fail, with a TypeError. *)
Lemma read_property_runs (py_eval : string -> outcome pyval)
      (found : option (list props)) (k : string) (w : world) :
  read_property py_eval found k w
  = (w, match found with
        | None => Raise TypeError
        | Some _ => Ok (PList [])
        end).
Proof.
  unfold read_property. destruct found as [l |]; [| reflexivity].
  unfold bind, lift. rewrite string_not_in_maps. reflexivity.
Qed.

(** C2.  [link_resources] calls [get_resource] without an [initial_graph]:
    whatever the reference URL, resolved or not, the call ends in an
    exception (the configuration error for an empty URL, an AttributeError on
    [None.collection_endpoints] otherwise) and the world is left as it was;
    the branch that returns the diagnostic message is never reached. *)
Theorem link_resources_always_raises :
  forall (self : GraphOperations) (parent_id parent_type node_url : string)
         (w : world),
    link_resources self parent_id parent_type node_url w
    = (w, Raise (if is_empty node_url
                 then PyException "ERR: You should set at leasturl OR resource_type"
                 else AttributeError)).
Proof.
  intros self pid pty url w.
  unfold link_resources, get_resource, bind.
  destruct url as [| c r]; reflexivity.
Qed.

(** C3, as the code has it.  The handlers catch nothing.  [get_processing] on
    a URL of unsupported shape adds the line [No modification to Redis was
    made] to the log, leaves the store and the payload as they are and
    returns [None]; [delete_processing], and [post_processing] which calls it
    first, raise ValueError for every URL whose normalised form does not
    split into exactly three segments. *)
Theorem handlers_return_or_raise :
  forall (py_eval : string -> outcome pyval) (self : GraphOperations)
         (url : string) (w : world),
    (length (url_segments self url) <> 6 ->
     length (url_segments self url) <> 2 ->
     get_processing py_eval self url w
     = (mkWorld (store w) (obj w)
                (log w ++ ["No modification to Redis was made"])%list,
        Ok PNone))
    /\ (length (url_segments self url) <> 3 ->
        snd (delete_processing py_eval self url w) = Raise ValueError
        /\ snd (post_processing py_eval self url w) = Raise ValueError).
Proof.
  intros py_eval self url w. split.
  - intros H6 H2. exact (get_processing_unsupported py_eval self url w H6 H2).
  - intros H3. split.
    + rewrite delete_processing_bad_shape by assumption. reflexivity.
    + unfold post_processing. run.
      rewrite delete_processing_bad_shape by assumption. reflexivity.
Qed.

Lemma handlers_return_or_raise_witness :
  (length (url_segments Scenario.agent Scenario.status_url) <> 6
   /\ length (url_segments Scenario.agent Scenario.status_url) <> 2
   /\ length (url_segments Scenario.agent Scenario.status_url) <> 3)
  /\ get_processing (Scenario.eval_table []) Scenario.agent
       Scenario.status_url Scenario.status_world
     = (mkWorld (store Scenario.status_world) (obj Scenario.status_world)
                (log Scenario.status_world
                 ++ ["No modification to Redis was made"])%list,
        Ok PNone)
  /\ snd (delete_processing (Scenario.eval_table []) Scenario.agent
            Scenario.status_url Scenario.status_world) = Raise ValueError
  /\ snd (post_processing (Scenario.eval_table []) Scenario.agent
            Scenario.status_url Scenario.status_world) = Raise ValueError.
Proof.
  assert (H6 : length (url_segments Scenario.agent
                         Scenario.status_url) <> 6)
    by (vm_compute; lia).
  assert (H2 : length (url_segments Scenario.agent
                         Scenario.status_url) <> 2)
    by (vm_compute; lia).
  assert (H3 : length (url_segments Scenario.agent
                         Scenario.status_url) <> 3)
    by (vm_compute; lia).
  destruct (handlers_return_or_raise (Scenario.eval_table []) Scenario.agent
              Scenario.status_url Scenario.status_world) as [Hget Hdel].
  destruct (Hdel H3) as [Hd Hp].
  exact (conj (conj H6 (conj H2 H3)) (conj (Hget H6 H2) (conj Hd Hp))).
Defined.

(** C3, as the spec states it, fails: [delete_processing] on the URL of a
    collection, [.../api/Drone], lets a ValueError out. *)
Lemma delete_processing_collection_url_raises :
  snd (delete_processing (Scenario.eval_table []) Scenario.agent
         "http://localhost:8080/api/Drone"
         (Scenario.world_of [Scenario.class_node; Scenario.collection_node []] []))
  = Raise ValueError.
Proof. vm_compute. reflexivity. Qed.

(** C5, as the code has it.  On a URL that is neither of member nor of
    collection shape, [get_processing] and [put_processing] leave the graph
    store as it is and return [None], which is not the empty list returned
    for a collection. *)
Theorem unsupported_shape_no_mutation :
  forall (py_eval : string -> outcome pyval) (self : GraphOperations)
         (url : string) (w : world),
    length (url_segments self url) <> 6 ->
    length (url_segments self url) <> 2 ->
    (store (fst (get_processing py_eval self url w)) = store w
     /\ obj (fst (get_processing py_eval self url w)) = obj w
     /\ snd (get_processing py_eval self url w) = Ok PNone)
    /\ (store (fst (put_processing py_eval self url w)) = store w
        /\ snd (put_processing py_eval self url w) = Ok PNone)
    /\ PNone <> PList [].
Proof.
  intros py_eval self url w H6 H2. repeat split.
  - rewrite get_processing_unsupported by assumption. reflexivity.
  - rewrite get_processing_unsupported by assumption. reflexivity.
  - rewrite get_processing_unsupported by assumption. reflexivity.
  - unfold put_processing. run.
    rewrite get_processing_unsupported by assumption. reflexivity.
  - unfold put_processing. run.
    rewrite get_processing_unsupported by assumption. reflexivity.
  - discriminate.
Qed.

Lemma unsupported_shape_no_mutation_witness :
  (length (url_segments Scenario.agent Scenario.status_url) <> 6
   /\ length (url_segments Scenario.agent Scenario.status_url) <> 2)
  /\ (store (fst (get_processing (Scenario.eval_table []) Scenario.agent
                    Scenario.status_url Scenario.status_world))
      = store Scenario.status_world
      /\ obj (fst (get_processing (Scenario.eval_table []) Scenario.agent
                     Scenario.status_url Scenario.status_world))
         = obj Scenario.status_world
      /\ snd (get_processing (Scenario.eval_table []) Scenario.agent
                Scenario.status_url Scenario.status_world)
         = Ok PNone)
     /\ (store (fst (put_processing (Scenario.eval_table []) Scenario.agent
                       Scenario.status_url Scenario.status_world))
         = store Scenario.status_world
         /\ snd (put_processing (Scenario.eval_table []) Scenario.agent
                   Scenario.status_url Scenario.status_world)
            = Ok PNone)
     /\ PNone <> PList [].
Proof.
  assert (H6 : length (url_segments Scenario.agent Scenario.status_url) <> 6)
    by (vm_compute; lia).
  assert (H2 : length (url_segments Scenario.agent Scenario.status_url) <> 2)
    by (vm_compute; lia).
  exact (conj (conj H6 H2)
              (unsupported_shape_no_mutation (Scenario.eval_table [])
                 Scenario.agent Scenario.status_url Scenario.status_world H6 H2)).
Defined.

(** C5, as the spec states it, fails: [delete_processing] has no test of the
    URL's shape before it deletes.  On the four-segment URL
    [.../api/Drone/1/status] it removes the node of that id from the store
    (and then raises). *)
Lemma delete_processing_unsupported_shape_mutates :
  length (url_segments Scenario.agent Scenario.status_url) = 4
  /\ g_nodes (store Scenario.status_world)
     = [Scenario.class_node; Scenario.drone_node 3 "/api/Drone/1/status" "X1"]
  /\ g_nodes (store (fst (delete_processing (Scenario.eval_table [])
                            Scenario.agent Scenario.status_url
                            Scenario.status_world)))
     = [Scenario.class_node].
Proof. vm_compute. repeat split. Qed.

(** *** The id that create, replace and delete derive from the URL *)

Lemma split_max_cut (c : ascii) (a rest : string) (n : nat) :
  has_char c a = false ->
  split_max c (a ++ String c rest) (S n) = a :: split_max c rest n.
Proof.
  induction a as [| x a IH]; simpl; intros H.
  - rewrite Ascii.eqb_refl. reflexivity.
  - apply orb_false_iff in H. destruct H as [Hx Ha].
    rewrite Hx. rewrite (IH Ha). reflexivity.
Qed.

(** For a URL [scheme/…/authority/path] the derived id is the whole path
    after the third slash, with a slash in front. *)
Lemma url_object_id_path (scheme gap authority path : string) :
  has_char "/" scheme = false ->
  has_char "/" gap = false ->
  has_char "/" authority = false ->
  url_object_id (scheme ++ "/" ++ gap ++ "/" ++ authority ++ "/" ++ path)
  = "/" ++ path.
Proof.
  intros Hs Hg Ha. unfold url_object_id.
  change (scheme ++ "/" ++ gap ++ "/" ++ authority ++ "/" ++ path)
    with (scheme ++ String "/" (gap ++ String "/" (authority ++ String "/" path))).
  rewrite (split_max_cut "/" scheme _ 2 Hs).
  rewrite (split_max_cut "/" gap _ 1 Hg).
  rewrite (split_max_cut "/" authority _ 0 Ha).
  destruct path; reflexivity.
Qed.

(** C9, as the code has it.  [put_processing] writes into the payload, as its
    ['@id'], a slash followed by the last component of [url.split('/', 3)]
    (for [scheme//authority/path] that is the whole path after the authority,
    not its last segment only) and returns exactly what [get_processing]
    returns, world and result, for that URL and the enriched payload. *)
Theorem put_processing_delegates :
  forall (py_eval : string -> outcome pyval) (self : GraphOperations)
         (url : string) (w : world),
    put_processing py_eval self url w
    = get_processing py_eval self url
        (mkWorld (store w)
                 (dict_set "@id" (PStr (url_object_id url)) (obj w)) (log w))
    /\ (forall scheme authority path : string,
          has_char "/" scheme = false ->
          has_char "/" authority = false ->
          url = scheme ++ "//" ++ authority ++ "/" ++ path ->
          url_object_id url = "/" ++ path).
Proof.
  intros py_eval self url w. split.
  - unfold put_processing. run.
    destruct (get_processing py_eval self url _) as [w' [v | e]]; reflexivity.
  - intros scheme authority path Hs Ha ->.
    exact (url_object_id_path scheme "" authority path Hs eq_refl Ha).
Qed.

Lemma put_processing_delegates_witness :
  (has_char "/" "http:" = false
   /\ has_char "/" "localhost:8080" = false
   /\ Scenario.member_url = "http:" ++ "//" ++ "localhost:8080" ++ "/" ++ "api/Drone/1")
  /\ put_processing (Scenario.eval_table [PList []]) Scenario.far_agent
       Scenario.member_url Scenario.create_world
     = get_processing (Scenario.eval_table [PList []]) Scenario.far_agent
         Scenario.member_url
         (mkWorld (store Scenario.create_world)
                  (dict_set "@id" (PStr (url_object_id Scenario.member_url))
                            (obj Scenario.create_world))
                  (log Scenario.create_world))
  /\ url_object_id Scenario.member_url = "/" ++ "api/Drone/1".
Proof.
  destruct (put_processing_delegates (Scenario.eval_table [PList []])
              Scenario.far_agent Scenario.member_url Scenario.create_world)
    as [Heq Hid].
  exact (conj (conj eq_refl (conj eq_refl eq_refl))
              (conj Heq (Hid "http:" "localhost:8080" "api/Drone/1"
                             eq_refl eq_refl eq_refl))).
Defined.

(** C9, as the spec states it, fails: the id is not derived from the URL's
    trailing path segment.  Two URLs with the same trailing segment [1]
    receive different ids, [/api/Drone/1] and [/api/State/1]. *)
Lemma put_processing_id_is_not_trailing_segment :
  last_str (split "/" "http://localhost:8080/api/Drone/1") = "1"
  /\ last_str (split "/" "http://localhost:8080/api/State/1") = "1"
  /\ dict_get "@id"
       (obj (fst (put_processing (Scenario.eval_table []) Scenario.agent
                    "http://localhost:8080/api/Drone/1"
                    (Scenario.world_of [] [("@type", PStr "Drone")]))))
     = Some (PStr "/api/Drone/1")
  /\ dict_get "@id"
       (obj (fst (put_processing (Scenario.eval_table []) Scenario.agent
                    "http://localhost:8080/api/State/1"
                    (Scenario.world_of [] [("@type", PStr "Drone")]))))
     = Some (PStr "/api/State/1").
Proof. vm_compute. repeat split. Qed.

(** *** Deleting a member *)

(** C1.  With members [/api/Drone/12] and [/api/Drone/1],
    [delete_processing] of [.../api/Drone/1] tests ['members' not in
    collection_members] on the list that [read] returned.  No property map
    equals the string ['members'], so the members are taken to be the empty
    list, the loop with its test [resource_id in member['@id']] has nothing
    to walk, and the text of the empty list is written back:
    [/api/Drone/12] is removed together with [/api/Drone/1]. *)
Theorem delete_processing_removes_wrong_member :
  url_object_id Scenario.member_url = "/api/Drone/1"
  /\ Scenario.members_text Scenario.delete_world
     = Some (py_repr (PList [Scenario.ref "/api/Drone/12";
                             Scenario.ref "/api/Drone/1"]))
  /\ snd (delete_processing Scenario.eval_refs Scenario.agent
            Scenario.member_url Scenario.delete_world) = Ok PNone
  /\ Scenario.members_text
       (fst (delete_processing Scenario.eval_refs Scenario.agent
               Scenario.member_url Scenario.delete_world))
     = Some (py_repr (PList [])).
Proof. vm_compute. repeat split. Qed.

(** C8.  [/api/Drone/1] is neither a node of the graph nor a member of the
    collection, whose only member is [/api/Drone/12]; [delete_processing] of
    [.../api/Drone/1] nevertheless empties [members]: it takes the members
    to be the empty list, because ['members' not in collection_members]
    holds of the list that [read] returned, and writes that back. *)
Theorem delete_processing_absent_id_changes_members :
  find_all "" [("id", "/api/Drone/1")] (store Scenario.never_synced_world) = []
  /\ Scenario.members_text Scenario.never_synced_world
     = Some (py_repr (PList [Scenario.ref "/api/Drone/12"]))
  /\ snd (delete_processing Scenario.eval_refs Scenario.agent
            Scenario.member_url Scenario.never_synced_world) = Ok PNone
  /\ Scenario.members_text
       (fst (delete_processing Scenario.eval_refs Scenario.agent
               Scenario.member_url Scenario.never_synced_world))
     = Some (py_repr (PList [])).
Proof. vm_compute. repeat split. Qed.

(** *** Replacing a member *)

Section Replace.

Variable py_eval : string -> outcome pyval.
Variable self : GraphOperations.

Lemma delete_processing_creates_nothing (url : string) (w : world) :
  g_next (store (fst (delete_processing py_eval self url w))) = g_next (store w)
  /\ obj (fst (delete_processing py_eval self url w)) = obj w.
Proof.
  unfold delete_processing. run.
  destruct (url_segments self url) as [| a [| b [| c [| d r]]]];
    simpl; try (split; reflexivity).
  rewrite read_property_runs.
  destruct (find_all _ _ _); simpl; split; reflexivity.
Qed.

(** [delete_processing] wants three segments and the member branch of
    [get_processing] six, of the same normalised URL: [post_processing]
    never reaches the point where the new node is created.  It creates no
    node and never returns a list of embedded resources. *)
Lemma post_processing_creates_nothing (url : string) (w : world) :
  g_next (store (fst (post_processing py_eval self url w))) = g_next (store w)
  /\ (snd (post_processing py_eval self url w) = Ok PNone
      \/ exists e, snd (post_processing py_eval self url w) = Raise e).
Proof.
  unfold post_processing. run.
  set (w1 := mkWorld (store w) (dict_set "@id" (PStr (url_object_id url)) (obj w))
                     (log w)).
  destruct (Nat.eq_dec (length (url_segments self url)) 3) as [H3 | H3].
  - destruct (delete_processing_creates_nothing url w1) as [Hn _].
    destruct (delete_processing py_eval self url w1) as [w2 [v | e]]; simpl in *.
    + rewrite get_processing_unsupported by lia. simpl. split; [exact Hn | now left].
    + split; [exact Hn | right; now exists e].
  - rewrite delete_processing_bad_shape by assumption. simpl.
    split; [reflexivity | right; now exists ValueError].
Qed.

End Replace.

(** C4.  The drone [/api/Drone/1] is read at its member URL and cached with
    [name = X1] and [model = A]; [post_processing] of the new version at the
    same URL deletes the cached node and then raises ValueError while
    unpacking the six segments of the URL: no node of the drone is left, and
    the look-up returns nothing instead of [name = X2].  With an entrypoint
    that is a prefix of the URL (three segments) the call returns [None] and
    the node is gone just the same. *)
Theorem post_processing_loses_the_resource :
  (snd (get_processing Scenario.eval_refs Scenario.far_agent Scenario.member_url
          (Scenario.sync_world Scenario.drone_v1))
   = Ok (PList [PDict [("parent_id", PStr "/api/Drone/1");
                       ("parent_type", PStr "Drone");
                       ("embedded_url", PStr "vocab:State")]])
   /\ find_all ":objectsDrone" [] (store (Scenario.after_read Scenario.drone_v1))
      = [[("@id", "/api/Drone/1"); ("@type", "Drone"); ("name", "X1"); ("model", "A")]]
   /\ snd (post_processing Scenario.eval_refs Scenario.far_agent Scenario.member_url
             (Scenario.with_payload (Scenario.after_read Scenario.drone_v1)
                                    Scenario.drone_v2))
      = Raise ValueError
   /\ find_all ":objectsDrone" []
        (store (fst (post_processing Scenario.eval_refs Scenario.far_agent
                       Scenario.member_url
                       (Scenario.with_payload (Scenario.after_read Scenario.drone_v1)
                                              Scenario.drone_v2))))
      = []
   /\ snd (get_resource Scenario.far_agent (Some Scenario.member_url)
             (Some Scenario.initial_graph) None []
             (fst (post_processing Scenario.eval_refs Scenario.far_agent
                     Scenario.member_url
                     (Scenario.with_payload (Scenario.after_read Scenario.drone_v1)
                                            Scenario.drone_v2))))
      = Ok PNone)
  /\ (find_all ":objectsDrone" [("id", "/api/Drone/1")]
        (store (Scenario.with_payload Scenario.delete_world Scenario.drone_v2))
      = [[("@id", "/api/Drone/1"); ("@type", "Drone"); ("name", "X1")]]
      /\ snd (post_processing Scenario.eval_refs Scenario.agent Scenario.member_url
                (Scenario.with_payload Scenario.delete_world Scenario.drone_v2))
         = Ok PNone
      /\ find_all ":objectsDrone" [("id", "/api/Drone/1")]
           (store (fst (post_processing Scenario.eval_refs Scenario.agent
                          Scenario.member_url
                          (Scenario.with_payload Scenario.delete_world
                                                 Scenario.drone_v2))))
         = []).
Proof. vm_compute. repeat split. Qed.

(** *** Looking a member up *)

(** C6.  After [get_processing] of the drone at [.../api/Drone/1] the node is
    in the store, under the id of the payload; [get_resource] for the same
    URL asks for the id ['/' + url_list[-1]], that is ['/1'], finds no node
    and returns [None].  This is so for the id the spec uses, [/Drone/1], and
    for the id that [put_processing] derives from the URL, [/api/Drone/1]. *)
Theorem get_resource_misses_synced_member :
  (find_all ":objectsDrone" [] (store (Scenario.after_read Scenario.drone_spec))
   = [[("@id", "/Drone/1"); ("@type", "Drone"); ("name", "X1")]]
   /\ get_resource Scenario.far_agent (Some Scenario.member_url)
        (Some Scenario.initial_graph) None []
        (Scenario.after_read Scenario.drone_spec)
      = (Scenario.after_read Scenario.drone_spec, Ok PNone))
  /\ (find_all ":objectsDrone" []
        (store (fst (put_processing Scenario.eval_refs Scenario.far_agent
                       Scenario.member_url
                       (Scenario.sync_world Scenario.drone_spec))))
      = [[("@id", "/api/Drone/1"); ("@type", "Drone"); ("name", "X1")]]
      /\ snd (get_resource Scenario.far_agent (Some Scenario.member_url)
                (Some Scenario.initial_graph) None []
                (fst (put_processing Scenario.eval_refs Scenario.far_agent
                        Scenario.member_url
                        (Scenario.sync_world Scenario.drone_spec))))
         = Ok PNone).
Proof. vm_compute. repeat split. Qed.

(** *** Dicts and the graph primitives *)

Lemma dict_get_set_same {A : Type} (k : string) (v : A) (d : list (string * A)) :
  dict_get k (dict_set k v d) = Some v.
Proof.
  induction d as [| [k' v'] d IH]; simpl.
  - rewrite String.eqb_refl. reflexivity.
  - destruct (String.eqb k k') eqn:E; simpl; rewrite E; [reflexivity | exact IH].
Qed.

Lemma dict_get_set_other {A : Type} (k k' : string) (v : A) (d : list (string * A)) :
  k <> k' -> dict_get k (dict_set k' v d) = dict_get k d.
Proof.
  intros Hk. induction d as [| [k0 v0] d IH]; simpl.
  - apply String.eqb_neq in Hk. rewrite Hk. reflexivity.
  - destruct (String.eqb k' k0) eqn:E; simpl.
    + apply String.eqb_eq in E. subst k0.
      apply String.eqb_neq in Hk. rewrite Hk. reflexivity.
    + rewrite IH. reflexivity.
Qed.

Lemma dict_set_keys {A : Type} (k : string) (v old : A) (d : list (string * A)) :
  dict_get k d = Some old -> map fst (dict_set k v d) = map fst d.
Proof.
  induction d as [| [k' v'] d IH]; simpl; [discriminate |].
  destruct (String.eqb k k') eqn:E; simpl; intros H.
  - reflexivity.
  - rewrite (IH H). reflexivity.
Qed.

Lemma stringify_keys (d : dict) : map fst (stringify d) = map fst d.
Proof. unfold stringify. rewrite map_map. reflexivity. Qed.

Lemma stringify_get_str (k s : string) (d : dict) :
  dict_get k d = Some (PStr s) -> dict_get k (stringify d) = Some (PStr s).
Proof.
  induction d as [| [k' v'] d IH]; simpl; [discriminate |].
  destruct (String.eqb k k'); intros H.
  - injection H as ->. reflexivity.
  - exact (IH H).
Qed.

Lemma props_of_dict_get_str (k s : string) (d : dict) :
  dict_get k d = Some (PStr s) -> dict_get k (props_of_dict d) = Some s.
Proof.
  induction d as [| [k' v'] d IH]; simpl; [discriminate |].
  destruct (String.eqb k k'); intros H.
  - injection H as ->. reflexivity.
  - exact (IH H).
Qed.

Lemma attr_set_other (k k' v : string) (p : props) :
  k <> k' -> "@" ++ k <> k' ->
  attr k (dict_set k' v p) = attr k p.
Proof.
  intros H1 H2. unfold attr.
  rewrite (dict_get_set_other k k' v p H1).
  rewrite (dict_get_set_other ("@" ++ k) k' v p H2). reflexivity.
Qed.

(** Setting a property that the predicate does not mention leaves the
    selection as it was. *)
Lemma selects_id_after_set (m i k v : string) (n : node) :
  "id" <> k -> "@id" <> k ->
  selects m [("id", i)]
          (mkNode (n_key n) (n_label n) (n_alias n) (dict_set k v (n_props n)))
  = selects m [("id", i)] n.
Proof.
  intros H1 H2. unfold selects, holds, has_label. simpl.
  rewrite (attr_set_other "id" k v (n_props n) H1 H2). reflexivity.
Qed.

Lemma find_one_after_set (m i k v : string) (g : graph) (p : props) :
  "id" <> k -> "@id" <> k ->
  find_one m [("id", i)] g = Some p ->
  find_one m [("id", i)] (set_property m [("id", i)] k v g)
  = Some (dict_set k v p).
Proof.
  intros H1 H2. unfold find_one, find_all, set_property. simpl.
  induction (g_nodes g) as [| n l IH]; simpl; [discriminate |].
  destruct (selects m [("id", i)] n) eqn:E.
  - rewrite (selects_id_after_set m i k v n H1 H2), E. simpl.
    intros H. injection H as <-. reflexivity.
  - rewrite E. exact IH.
Qed.

Lemma find_one_commit (m : string) (w : where_clause) (g : graph) (p : props) :
  find_one m w g = Some p -> find_one m w (commit g) = Some p.
Proof.
  unfold find_one, find_all, commit. simpl.
  rewrite filter_app, map_app.
  destruct (map n_props (filter (selects m w) (g_nodes g))); simpl;
    [discriminate | trivial].
Qed.

Lemma find_one_create_edge (m : string) (w : where_clause) (g : graph)
      (rel ls : string) (ws : where_clause) (ld : string) (wd : where_clause) :
  find_one m w (fst (create_edge rel ls ws ld wd g)) = find_one m w g.
Proof.
  unfold create_edge.
  destruct (filter (selects ls ws) (g_nodes g));
    destruct (filter (selects ld wd) (g_nodes g)); reflexivity.
Qed.

(** *** Reading a member *)

(** C7.  The node that owns the instances of the drones holds one entry,
    [/api/Drone/12].  [get_processing] of [/api/Drone/1] at a member URL of
    six segments tests ['instances' not in class_instances] on the list that
    [read] returned; the test holds for any list of property maps, so the
    sequence restarts from the empty list, and after the call [instances]
    holds the new reference alone: the earlier entry is lost and the length
    is still one.  With an entrypoint that is a prefix of the URL, the same
    member URL has three segments, and [get_processing] appends nothing. *)
Theorem get_processing_loses_instances :
  (length (url_segments Scenario.far_agent Scenario.member_url) = 6
   /\ Cases.instances_text Scenario.grow_world
      = Some (py_repr (PList [Scenario.ref "/api/Drone/12"]))
   /\ snd (get_processing Scenario.eval_grow Scenario.far_agent
             Scenario.member_url Scenario.grow_world)
      = Ok (PList [PDict [("parent_id", PStr "/api/Drone/1");
                          ("parent_type", PStr "Drone");
                          ("embedded_url", PStr "vocab:State")]])
   /\ Cases.instances_text
        (fst (get_processing Scenario.eval_grow Scenario.far_agent
                Scenario.member_url Scenario.grow_world))
      = Some (py_repr (PList [Scenario.ref "/api/Drone/1"])))
  /\ (url_segments Scenario.agent Scenario.member_url
      = ["EntryPoint"; "Drone"; "1"]
      /\ snd (get_processing Scenario.eval_grow Scenario.agent
                Scenario.member_url Scenario.grow_world) = Ok PNone
      /\ Cases.instances_text
           (fst (get_processing Scenario.eval_grow Scenario.agent
                   Scenario.member_url Scenario.grow_world))
         = Some (py_repr (PList [Scenario.ref "/api/Drone/12"]))).
Proof. vm_compute. repeat split. Qed.

(** *** The id written by create and replace *)


Lemma only_new_id_start (i : string) (g : graph) :
  only_new_id (map n_key (g_nodes g ++ g_pending g)%list) i g.
Proof. intros n Hn. left. apply in_map. exact Hn. Qed.

Lemma only_new_id_set (known : list nat) (i m k v : string) (wc : where_clause)
      (g : graph) :
  "@id" <> k ->
  only_new_id known i g -> only_new_id known i (set_property m wc k v g).
Proof.
  intros Hk H n Hn. unfold set_property in Hn. simpl in Hn.
  apply in_app_or in Hn. destruct Hn as [Hn | Hn].
  - apply in_map_iff in Hn. destruct Hn as [n0 [<- Hn0]].
    destruct (H n0 (in_or_app _ _ _ (or_introl Hn0))) as [Hold | Hnew].
    + left. destruct (selects m wc n0); exact Hold.
    + right. destruct (selects m wc n0); [| exact Hnew].
      simpl. rewrite dict_get_set_other by exact Hk. exact Hnew.
  - apply H. apply in_or_app. right. exact Hn.
Qed.

Lemma only_new_id_delete (known : list nat) (i m : string) (wc : where_clause)
      (g : graph) :
  only_new_id known i g -> only_new_id known i (delete_nodes m wc g).
Proof.
  intros H n Hn. unfold delete_nodes in Hn. simpl in Hn.
  apply H. apply in_app_or in Hn. apply in_or_app.
  destruct Hn as [Hn | Hn]; [left | right; exact Hn].
  apply filter_In in Hn. exact (proj1 Hn).
Qed.

Lemma only_new_id_create (known : list nat) (i label alias : string) (p : props)
      (g : graph) :
  dict_get "@id" p = Some i ->
  only_new_id known i g -> only_new_id known i (create_node label alias p g).
Proof.
  intros Hp H n Hn. unfold create_node in Hn. simpl in Hn.
  rewrite app_assoc in Hn. apply in_app_or in Hn. destruct Hn as [Hn | Hn].
  - apply H. exact Hn.
  - right. destruct Hn as [<- | []]. exact Hp.
Qed.

Lemma only_new_id_commit (known : list nat) (i : string) (g : graph) :
  only_new_id known i g -> only_new_id known i (commit g).
Proof.
  intros H n Hn. unfold commit in Hn. simpl in Hn.
  rewrite app_nil_r in Hn. apply H. exact Hn.
Qed.

Lemma only_new_id_edge (known : list nat) (i rel ls ld : string)
      (ws wd : where_clause) (g : graph) :
  only_new_id known i g ->
  only_new_id known i (fst (create_edge rel ls ws ld wd g)).
Proof.
  intros H. unfold create_edge.
  destruct (filter (selects ls ws) (g_nodes g));
    destruct (filter (selects ld wd) (g_nodes g)); exact H.
Qed.

(** *** Invariants of the handler monad *)



Lemma preserves_readonly {A : Type} (P : world -> Prop) (m : M A) :
  readonly m -> preserves P m.
Proof. intros H w HP. rewrite H. exact HP. Qed.

Lemma preserves_bind {A B : Type} (P : world -> Prop) (m : M A) (k : A -> M B) :
  preserves P m -> (forall a : A, preserves P (k a)) -> preserves P (bind m k).
Proof.
  intros Hm Hk w HP. unfold bind. specialize (Hm w HP).
  destruct (m w) as [w' [a | e]]; simpl in *.
  - exact (Hk a w' Hm).
  - exact Hm.
Qed.

(** After a read-only action the continuation may use what the action
    returned in the very world it ran in. *)
Lemma preserves_bind_observe {A B : Type} (P : world -> Prop) (m : M A)
      (k : A -> M B) :
  readonly m ->
  (forall (w : world) (a : A), P w -> m w = (w, Ok a) -> P (fst (k a w))) ->
  preserves P (bind m k).
Proof.
  intros Hro Hk w HP. unfold bind. specialize (Hro w).
  destruct (m w) as [w' [a | e]] eqn:E; simpl in *; subst w'.
  - exact (Hk w a HP E).
  - exact HP.
Qed.

Lemma readonly_ret {A : Type} (a : A) : readonly (ret a).
Proof. intro w. reflexivity. Qed.

Lemma readonly_raise {A : Type} (e : exn) : readonly (@raise A e).
Proof. intro w. reflexivity. Qed.

Lemma readonly_lift {A : Type} (o : outcome A) : readonly (lift o).
Proof. intro w. reflexivity. Qed.

Lemma readonly_get_obj : readonly get_obj.
Proof. intro w. reflexivity. Qed.

Lemma readonly_item (k : string) : readonly (item k).
Proof. intro w. reflexivity. Qed.

Lemma readonly_gu_read (m : string) (wc : where_clause) :
  readonly (gu_read m wc).
Proof. intro w. reflexivity. Qed.

Lemma readonly_gu_read_all (m : string) (wc : where_clause) :
  readonly (gu_read_all m wc).
Proof. intro w. reflexivity. Qed.

Lemma readonly_read_property (py_eval : string -> outcome pyval)
      (found : option (list props)) (k : string) :
  readonly (read_property py_eval found k).
Proof. intro w. rewrite read_property_runs. reflexivity. Qed.

Create HintDb readonly.
#[local] Hint Resolve readonly_ret readonly_raise readonly_lift readonly_get_obj
  readonly_item readonly_gu_read readonly_gu_read_all
  readonly_read_property : readonly.

Lemma gu_update_runs (m : string) (wc : where_clause) (k v : string) (w : world) :
  gu_update m wc k v w
  = (mkWorld (set_property m wc k v (store w)) (obj w) (log w), Ok tt).
Proof. reflexivity. Qed.

Lemma gu_delete_runs (wc : where_clause) (w : world) :
  gu_delete wc w = (mkWorld (delete_nodes "" wc (store w)) (obj w) (log w), Ok tt).
Proof. reflexivity. Qed.

Lemma gu_add_node_runs (label alias : string) (p : props) (w : world) :
  gu_add_node label alias p w
  = (mkWorld (create_node label alias p (store w)) (obj w) (log w), Ok tt).
Proof. reflexivity. Qed.

Lemma gu_flush_runs (w : world) :
  gu_flush w = (mkWorld (commit (store w)) (obj w) (log w), Ok tt).
Proof. reflexivity. Qed.

Lemma gu_create_relation_runs (ls : string) (ws : where_clause) (rel ld : string)
      (wd : where_clause) (w : world) :
  gu_create_relation ls ws rel ld wd w
  = (mkWorld (fst (create_edge rel ls ws ld wd (store w))) (obj w) (log w),
     Ok (snd (create_edge rel ls ws ld wd (store w)))).
Proof. reflexivity. Qed.

Ltac ro := solve [apply preserves_readonly; auto with readonly].

Ltac next := apply preserves_bind; [| intro].

Section Overwrite.

Variable py_eval : string -> outcome pyval.
Variable self : GraphOperations.
Variable known : list nat.
Variable i : string.
Variable keys : list string.


Lemma id_written_update (m : string) (wc : where_clause) (k v : string) :
  "@id" <> k -> preserves (id_written known i keys) (gu_update m wc k v).
Proof.
  intros Hk w [Hid [Hkeys Hnew]]. rewrite gu_update_runs. simpl.
  repeat split; try assumption. apply only_new_id_set; assumption.
Qed.

Lemma id_written_relation (ls : string) (ws : where_clause) (rel ld : string)
      (wd : where_clause) :
  preserves (id_written known i keys) (gu_create_relation ls ws rel ld wd).
Proof.
  intros w [Hid [Hkeys Hnew]]. rewrite gu_create_relation_runs. simpl.
  repeat split; try assumption. apply only_new_id_edge; assumption.
Qed.

Lemma id_written_flush : preserves (id_written known i keys) gu_flush.
Proof.
  intros w [Hid [Hkeys Hnew]]. rewrite gu_flush_runs. simpl.
  repeat split; try assumption. apply only_new_id_commit; assumption.
Qed.

Lemma id_written_delete (wc : where_clause) :
  preserves (id_written known i keys) (gu_delete wc).
Proof.
  intros w [Hid [Hkeys Hnew]]. rewrite gu_delete_runs. simpl.
  repeat split; try assumption. apply only_new_id_delete; assumption.
Qed.

Lemma id_written_log (msg : string) :
  preserves (id_written known i keys) (logger_info msg).
Proof. intros w H. exact H. Qed.

Lemma get_processing_keeps_id (url : string) :
  preserves (id_written known i keys) (get_processing py_eval self url).
Proof.
  unfold get_processing.
  destruct (Nat.eqb (length (url_segments self url)) 6);
    [| destruct (Nat.eqb (length (url_segments self url)) 2)].
  - next; [ro |]. next; [ro |]. next; [ro |]. next; [ro |]. next; [ro |].
    next; [apply id_written_update; discriminate |].
    apply preserves_bind_observe; [auto with readonly |].
    intros w resource [Hid [Hkeys Hnew]] Hobs.
    injection Hobs as <-.
    unfold bind at 1. unfold put_obj at 1. simpl.
    refine ((_ : preserves (id_written known i keys) _) _ _);
      [| repeat split; simpl;
         [exact (stringify_get_str "@id" i (obj w) Hid)
         | rewrite stringify_keys; exact Hkeys
         | exact Hnew]].
    next; [ro |]. next; [ro |].
    apply preserves_bind_observe; [auto with readonly |].
    intros w' resource [Hid' [Hkeys' Hnew']] Hobs.
    injection Hobs as <-.
    unfold bind at 1. rewrite gu_add_node_runs.
    refine ((_ : preserves (id_written known i keys) _) _ _);
      [| repeat split; simpl; try assumption;
         apply only_new_id_create;
         [exact (props_of_dict_get_str "@id" i (obj w') Hid') | exact Hnew']].
    next; [apply id_written_flush |].
    next; [ro |]. next; [ro |].
    next; [apply id_written_relation |].
    next; [| ro].
    match goal with
    | |- preserves _ (match ?x with Some _ => _ | None => _ end) => destruct x
    end; ro.
  - next; [ro |]. next; [apply id_written_update; discriminate | ro].
  - next; [apply id_written_log | ro].
Qed.

Lemma delete_processing_keeps_id (url : string) :
  preserves (id_written known i keys) (delete_processing py_eval self url).
Proof.
  unfold delete_processing.
  next; [apply id_written_delete |].
  destruct (url_segments self url) as [| s1 [| s2 [| s3 [| s4 r]]]];
    try solve [ro].
  next; [ro |]. next; [ro |]. next; [ro |].
  next; [apply id_written_update; discriminate | ro].
Qed.

End Overwrite.

Lemma put_processing_runs (py_eval : string -> outcome pyval)
      (self : GraphOperations) (url : string) (w : world) :
  put_processing py_eval self url w
  = get_processing py_eval self url
      (mkWorld (store w) (dict_set "@id" (PStr (url_object_id url)) (obj w))
               (log w)).
Proof.
  unfold put_processing. run.
  destruct (get_processing py_eval self url _) as [w' [v | e]]; reflexivity.
Qed.

Lemma post_processing_runs (py_eval : string -> outcome pyval)
      (self : GraphOperations) (url : string) (w : world) :
  post_processing py_eval self url w
  = match delete_processing py_eval self url
            (mkWorld (store w) (dict_set "@id" (PStr (url_object_id url)) (obj w))
                     (log w)) with
    | (w', Ok _) => get_processing py_eval self url w'
    | (w', Raise e) => (w', Raise e)
    end.
Proof.
  unfold post_processing. run.
  destruct (delete_processing py_eval self url _) as [w' [v | e]];
    [| reflexivity].
  destruct (get_processing py_eval self url w') as [w'' [v' | e]]; reflexivity.
Qed.

(** C10.  Whatever ['@id'] the payload came with, after [put_processing] and
    after [post_processing] the caller's object itself carries the id derived
    from the URL, with the same keys in the same order as before; and every
    node that the call added to the store has that id as its ['@id'], never
    the old one. *)
Theorem create_and_replace_overwrite_id :
  forall (py_eval : string -> outcome pyval) (self : GraphOperations)
         (url : string) (w : world) (old : pyval),
    dict_get "@id" (obj w) = Some old ->
    forall wf : world,
      wf = fst (put_processing py_eval self url w)
      \/ wf = fst (post_processing py_eval self url w) ->
      dict_get "@id" (obj wf) = Some (PStr (url_object_id url))
      /\ map fst (obj wf) = map fst (obj w)
      /\ (forall n : node,
             In n (g_nodes (store wf)) ->
             ~ In (n_key n)
                  (map n_key (g_nodes (store w) ++ g_pending (store w))%list) ->
             dict_get "@id" (n_props n) = Some (url_object_id url)).
Proof.
  intros py_eval self url w old Hold wf Hwf.
  set (known := map n_key (g_nodes (store w) ++ g_pending (store w))%list).
  set (w1 := mkWorld (store w)
                     (dict_set "@id" (PStr (url_object_id url)) (obj w)) (log w)).
  assert (H1 : id_written known (url_object_id url) (map fst (obj w)) w1).
  { repeat split; simpl.
    - apply dict_get_set_same.
    - exact (dict_set_keys "@id" _ old (obj w) Hold).
    - apply only_new_id_start. }
  assert (Hf : id_written known (url_object_id url) (map fst (obj w)) wf).
  { destruct Hwf as [-> | ->].
    - rewrite put_processing_runs. fold w1.
      exact (get_processing_keeps_id py_eval self known _ _ url w1 H1).
    - rewrite post_processing_runs. fold w1.
      assert (H2 := delete_processing_keeps_id py_eval self known _ _ url w1 H1).
      destruct (delete_processing py_eval self url w1) as [w2 [v | e]];
        simpl in H2; [| exact H2].
      exact (get_processing_keeps_id py_eval self known _ _ url w2 H2). }
  destruct Hf as [Hid [Hkeys Hnew]].
  repeat split; try assumption.
  intros n Hn Hfresh.
  destruct (Hnew n (in_or_app _ _ _ (or_introl Hn))) as [Hk | Hi];
    [contradiction | exact Hi].
Qed.

Lemma create_and_replace_overwrite_id_witness :
  dict_get "@id" (obj (Scenario.sync_world Scenario.drone_spec))
  = Some (PStr "/Drone/1")
  /\ dict_get "@id"
       (obj (fst (put_processing Scenario.eval_refs Scenario.far_agent
                    Scenario.member_url
                    (Scenario.sync_world Scenario.drone_spec))))
     = Some (PStr (url_object_id Scenario.member_url))
  /\ map fst (obj (fst (put_processing Scenario.eval_refs Scenario.far_agent
                          Scenario.member_url
                          (Scenario.sync_world Scenario.drone_spec))))
     = map fst (obj (Scenario.sync_world Scenario.drone_spec))
  /\ (forall n : node,
         In n (g_nodes (store (fst (put_processing Scenario.eval_refs
                                      Scenario.far_agent Scenario.member_url
                                      (Scenario.sync_world Scenario.drone_spec))))) ->
         ~ In (n_key n)
              (map n_key
                   (g_nodes (store (Scenario.sync_world Scenario.drone_spec))
                    ++ g_pending (store (Scenario.sync_world Scenario.drone_spec)))%list) ->
         dict_get "@id" (n_props n) = Some (url_object_id Scenario.member_url)).
Proof.
  split; [reflexivity |].
  exact (create_and_replace_overwrite_id Scenario.eval_refs Scenario.far_agent
           Scenario.member_url (Scenario.sync_world Scenario.drone_spec)
           (PStr "/Drone/1") eq_refl
           (fst (put_processing Scenario.eval_refs Scenario.far_agent
                   Scenario.member_url (Scenario.sync_world Scenario.drone_spec)))
           (or_introl eq_refl)).
Defined.

(** *** The walk over the members always ends *)

Lemma remove_first_length (x : pyval) (l : list pyval) :
  length (remove_first x l) <= length l.
Proof.
  induction l as [| y l IH]; simpl; [lia |].
  destruct (py_eq y x); simpl; lia.
Qed.

(** Once the fuel covers what is left of the list, more fuel changes
    nothing: the length of the list is enough for the whole walk. *)
Lemma remove_matching_fuel (resource_id : string) :
  forall (fuel fuel' i : nat) (l : list pyval),
    length l <= fuel + i -> length l <= fuel' + i ->
    remove_matching fuel i resource_id l = remove_matching fuel' i resource_id l.
Proof.
  induction fuel as [| f IH]; intros fuel' i l H H'.
  - assert (Hn : nth_error l i = None) by (apply nth_error_None; lia).
    destruct fuel'; simpl; [reflexivity | rewrite Hn; reflexivity].
  - destruct fuel' as [| f'].
    + assert (Hn : nth_error l i = None) by (apply nth_error_None; lia).
      simpl. rewrite Hn. reflexivity.
    + simpl. destruct (nth_error l i) as [member |]; [| reflexivity].
      destruct (subscript member "@id") as [v | e]; [| reflexivity].
      destruct (py_in resource_id v) as [[|] | e]; [| | reflexivity].
      * pose proof (remove_first_length member l). apply IH; lia.
      * apply IH; lia.
Qed.

(** *** What a look-up by URL can return *)

(** [get_resource] with a URL only ever returns a node whose id is a slash
    followed by the last segment of the URL. *)
Lemma get_resource_returns_last_segment_id (self : GraphOperations)
      (url : string) (ig : InitialGraph) (w : world) (d : dict) :
  snd (get_resource self (Some url) (Some ig) None [] w) = Ok (PDict d) ->
  exists p : props,
    PDict d = dict_of_props p
    /\ attr "id" p = Some ("/" ++ last_str (split "/" (rstrip "/" url))).
Proof.
  unfold get_resource. simpl.
  destruct (is_empty url); simpl; [discriminate |].
  destruct (mem _ (collection_endpoints ig)); simpl; [discriminate |].
  run.
  destruct (second_last _) as [prev | e]; simpl; [| discriminate].
  destruct (mem prev (collection_endpoints ig)); simpl; [discriminate |].
  destruct (mem prev (class_endpoints ig)); simpl; [| discriminate].
  destruct (find_all _ _ _) as [| p [| q r]] eqn:Hfind; simpl; try discriminate.
  intros H. injection H as H. exists p. split; [now rewrite <- H |].
  unfold find_all in Hfind.
  pose proof (in_eq p []) as Hin. rewrite <- Hfind in Hin.
  apply in_map_iff in Hin. destruct Hin as [n [<- Hn]].
  apply filter_In in Hn. destruct Hn as [_ Hsel].
  unfold selects, holds in Hsel. simpl in Hsel.
  destruct (attr "id" (n_props n)) as [v |]; [| discriminate].
  rewrite !andb_true_r in Hsel. apply String.eqb_eq in Hsel. now subst v.
Qed.

(** ** Further properties of the handlers *)

(** *** The member branch of [get_processing] *)

Lemma stringify_get (k : string) (v : pyval) (d : dict) :
  dict_get k d = Some v -> dict_get k (stringify d) = Some (PStr (py_str v)).
Proof.
  unfold stringify.
  induction d as [| [k' v'] d IH]; simpl; [discriminate |].
  destruct (String.eqb k k'); intros H.
  - injection H as ->. destruct v; reflexivity.
  - exact (IH H).
Qed.

(** The member branch, run on a world in which nothing fails before the
    first write. *)
Lemma get_processing_member_runs (py_eval : string -> outcome pyval)
      (self : GraphOperations) (url : string) (w : world)
      (r_id r_type : pyval) :
  length (url_segments self url) = 6 ->
  find_all "" [("id", owning_collection_id self url)] (store w) <> [] ->
  dict_get "@id" (obj w) = Some r_id ->
  dict_get "@type" (obj w) = Some r_type ->
  get_processing py_eval self url w
  = (mkWorld (member_store self url (store w) (obj w) r_id r_type)
             (stringify (obj w)) (log w),
     member_outcome self r_id r_type).
Proof.
  intros Hlen Hfind Hid Hty.
  unfold get_processing.
  rewrite (proj2 (Nat.eqb_eq _ _) Hlen).
  fold (owning_collection_id self url).
  run. rewrite read_property_runs.
  destruct (find_all "" [("id", owning_collection_id self url)] (store w))
    as [| p ps]; [contradiction |].
  cbn [fst snd]. rewrite Hid, Hty. simpl.
  rewrite (stringify_get "@type" r_type (obj w) Hty). simpl.
  rewrite (stringify_get "@id" r_id (obj w) Hid). simpl.
  unfold member_store, member_outcome, member_reference.
  destruct (dict_get (py_str r_type) (parsed_classes (api_doc self)));
    reflexivity.
Qed.

(** Either the member branch fails before its first write, and then the
    world is as it was, or it runs to the end of its writes. *)
Lemma get_processing_member_cases (py_eval : string -> outcome pyval)
      (self : GraphOperations) (url : string) (w : world) :
  length (url_segments self url) = 6 ->
  (exists e : exn, get_processing py_eval self url w = (w, Raise e))
  \/ (exists r_id r_type : pyval,
         find_all "" [("id", owning_collection_id self url)] (store w) <> []
         /\ dict_get "@id" (obj w) = Some r_id
         /\ dict_get "@type" (obj w) = Some r_type).
Proof.
  intros Hlen.
  destruct (find_all "" [("id", owning_collection_id self url)] (store w))
    as [| p ps] eqn:Hfind.
  - left. exists TypeError. unfold get_processing.
    rewrite (proj2 (Nat.eqb_eq _ _) Hlen).
    fold (owning_collection_id self url). run.
    rewrite read_property_runs, Hfind. reflexivity.
  - destruct (dict_get "@id" (obj w)) as [r_id |] eqn:Hid.
    + destruct (dict_get "@type" (obj w)) as [r_type |] eqn:Hty.
      * right. exists r_id, r_type. repeat split; discriminate.
      * left. exists (KeyError "@type"). unfold get_processing.
        rewrite (proj2 (Nat.eqb_eq _ _) Hlen).
        fold (owning_collection_id self url). run.
        rewrite read_property_runs, Hfind. cbn [fst snd].
        rewrite Hid, Hty. reflexivity.
    + left. exists (KeyError "@id"). unfold get_processing.
      rewrite (proj2 (Nat.eqb_eq _ _) Hlen).
      fold (owning_collection_id self url). run.
      rewrite read_property_runs, Hfind. cbn [fst snd].
      rewrite Hid. reflexivity.
Qed.

Lemma member_store_next (self : GraphOperations) (url : string) (g : graph)
      (payload : dict) (r_id r_type : pyval) :
  g_next (member_store self url g payload r_id r_type) = S (g_next g).
Proof.
  unfold member_store, create_edge.
  destruct (filter _ _); [reflexivity |].
  destruct (filter _ _); reflexivity.
Qed.

Lemma member_store_nodes (self : GraphOperations) (url : string) (g : graph)
      (payload : dict) (r_id r_type : pyval) :
  g_nodes (member_store self url g payload r_id r_type)
  = (g_nodes (set_property "" [("id", owning_collection_id self url)]
                "instances"
                (py_repr (PList [member_reference r_id r_type])) g)
     ++ g_pending g
     ++ [mkNode (g_next g) ("objects" ++ py_str r_type)
                (py_str r_type ++ nth 5 (url_segments self url) EmptyString)
                (props_of_dict (stringify payload))])%list.
Proof.
  unfold member_store, create_edge.
  destruct (filter _ _); [reflexivity |].
  destruct (filter _ _); reflexivity.
Qed.

(** X1.  At a member URL, [get_processing] leaves the world (store, payload
    and log) exactly as it was if and only if it fails before its first
    write: no node has the id of the owning collection, or the payload has no
    ['@id'] or no ['@type'].  In that case it raises. *)
Theorem get_processing_member_untouched_iff :
  forall (py_eval : string -> outcome pyval) (self : GraphOperations)
         (url : string) (w : world),
    length (url_segments self url) = 6 ->
    (fst (get_processing py_eval self url w) = w
     <-> (find_all "" [("id", owning_collection_id self url)] (store w) = []
          \/ dict_get "@id" (obj w) = None
          \/ dict_get "@type" (obj w) = None))
    /\ (fst (get_processing py_eval self url w) = w ->
        exists e : exn, snd (get_processing py_eval self url w) = Raise e).
Proof.
  intros py_eval self url w Hlen.
  destruct (get_processing_member_cases py_eval self url w Hlen)
    as [[e He] | [r_id [r_type [Hfind [Hid Hty]]]]].
  - split; [split |].
    + intros _.
      destruct (find_all "" [("id", owning_collection_id self url)] (store w))
        as [| p ps] eqn:Hfind; [left; reflexivity |].
      destruct (dict_get "@id" (obj w)) as [r_id |] eqn:Hid;
        [| right; left; reflexivity].
      destruct (dict_get "@type" (obj w)) as [r_type |] eqn:Hty;
        [| right; right; reflexivity].
      exfalso.
      assert (Hne : find_all "" [("id", owning_collection_id self url)] (store w)
                    <> []) by (rewrite Hfind; discriminate).
      pose proof (get_processing_member_runs py_eval self url w r_id r_type
                    Hlen Hne Hid Hty) as Hrun.
      rewrite He in Hrun. injection Hrun as Hw _.
      apply (f_equal (fun x => g_next (store x))) in Hw. simpl in Hw.
      rewrite member_store_next in Hw. lia.
    + intros _. rewrite He. reflexivity.
    + intros _. exists e. rewrite He. reflexivity.
  - pose proof (get_processing_member_runs py_eval self url w r_id r_type
                  Hlen Hfind Hid Hty) as Hrun.
    assert (Hne : fst (get_processing py_eval self url w) <> w).
    { rewrite Hrun. simpl. intros Hw.
      apply (f_equal (fun x => g_next (store x))) in Hw. simpl in Hw.
      rewrite member_store_next in Hw. lia. }
    split; [split |].
    + intros Hw. contradiction.
    + intros [Hno | [Hno | Hno]].
      * contradiction.
      * congruence.
      * congruence.
    + intros Hw. contradiction.
Qed.

Lemma dict_of_props_stringify (d : dict) :
  dict_of_props (props_of_dict (stringify d)) = PDict (stringify d).
Proof.
  unfold dict_of_props, props_of_dict, stringify. f_equal.
  rewrite !map_map. apply map_ext. intros [k v]. simpl.
  destruct v; reflexivity.
Qed.

Lemma stringify_all_str (d : dict) :
  Forall (fun kv => is_str (snd kv) = true) (stringify d).
Proof.
  unfold stringify. apply Forall_forall. intros kv Hin.
  apply in_map_iff in Hin. destruct Hin as [[k v] [<- _]]. simpl.
  destruct (is_str v) eqn:E; [exact E | reflexivity].
Qed.

Lemma find_all_after_set (m i k v : string) (g : graph) :
  "id" <> k -> "@id" <> k ->
  find_all m [("id", i)] (set_property m [("id", i)] k v g)
  = map (dict_set k v) (find_all m [("id", i)] g).
Proof.
  intros H1 H2. unfold find_all, set_property. simpl.
  induction (g_nodes g) as [| n l IH]; simpl; [reflexivity |].
  destruct (selects m [("id", i)] n) eqn:E.
  - rewrite (selects_id_after_set m i k v n H1 H2), E. simpl.
    rewrite IH. reflexivity.
  - rewrite E. exact IH.
Qed.

(** Setting a property on the nodes of one id leaves the selection by any
    id and label as it was. *)
Lemma filter_id_after_set (m m' i i' k v : string) (g : graph) :
  "id" <> k -> "@id" <> k ->
  map n_key (filter (selects m' [("id", i')])
                    (g_nodes (set_property m [("id", i)] k v g)))
  = map n_key (filter (selects m' [("id", i')]) (g_nodes g)).
Proof.
  intros H1 H2. unfold set_property. simpl.
  induction (g_nodes g) as [| n l IH]; simpl; [reflexivity |].
  destruct (selects m [("id", i)] n).
  - rewrite (selects_id_after_set m' i' k v n H1 H2).
    destruct (selects m' [("id", i')] n); simpl; rewrite IH; reflexivity.
  - destruct (selects m' [("id", i')] n); simpl; rewrite IH; reflexivity.
Qed.

Lemma get_resource_by_type_runs (self : GraphOperations) (url : option string)
      (ig : option InitialGraph) (resource_type : string) (filters : dict)
      (w : world) :
  falsy url = true ->
  resource_type <> EmptyString ->
  get_resource self url ig (Some resource_type) filters w
  = (w, Ok (PList (map dict_of_props
                       (find_all (":objects" ++ resource_type)
                                 (map (fun kv => (fst kv, py_str (snd kv))) filters)
                                 (store w))))).
Proof.
  intros Hurl Hty. unfold get_resource. rewrite Hurl. simpl.
  destruct resource_type as [| c r]; [contradiction |]. reflexivity.
Qed.

(** X2.  Once the member branch of [get_processing] has got past its first
    write, a look-up by the resource's type finds the resource: the list that
    [get_resource] returns for that type holds the caller's payload, every
    value turned into a string.  This holds whether or not the class is
    documented, that is, also when [get_processing] ends in a KeyError. *)
Theorem get_processing_then_lookup_by_type :
  forall (py_eval : string -> outcome pyval) (self : GraphOperations)
         (url : string) (w : world) (r_id r_type : pyval)
         (ig : option InitialGraph),
    length (url_segments self url) = 6 ->
    find_all "" [("id", owning_collection_id self url)] (store w) <> [] ->
    dict_get "@id" (obj w) = Some r_id ->
    dict_get "@type" (obj w) = Some r_type ->
    py_str r_type <> EmptyString ->
    exists found : list pyval,
      snd (get_resource self None ig (Some (py_str r_type)) []
             (fst (get_processing py_eval self url w)))
      = Ok (PList found)
      /\ In (PDict (obj (fst (get_processing py_eval self url w)))) found
      /\ obj (fst (get_processing py_eval self url w)) = stringify (obj w).
Proof.
  intros py_eval self url w r_id r_type ig Hlen Hseq Hid Hty Hne.
  rewrite (get_processing_member_runs py_eval self url w r_id r_type
             Hlen Hseq Hid Hty). simpl.
  rewrite (get_resource_by_type_runs self None ig (py_str r_type) [] _
             eq_refl Hne). simpl.
  eexists. split; [reflexivity |]. split; [| reflexivity].
  rewrite <- dict_of_props_stringify.
  apply in_map. unfold find_all. rewrite member_store_nodes.
  apply in_map_iff.
  exists (mkNode (g_next (store w)) ("objects" ++ py_str r_type)
                 (py_str r_type ++ nth 5 (url_segments self url) EmptyString)
                 (props_of_dict (stringify (obj w)))).
  split; [reflexivity |].
  apply filter_In. split.
  - apply in_or_app. right. apply in_or_app. right. now left.
  - unfold selects, holds, has_label, label_of. simpl.
    rewrite String.eqb_refl. reflexivity.
Qed.

(** X3.  When the payload's type is not a class of the API documentation,
    the member branch of [get_processing] raises KeyError for that type, but
    only after its writes: [instances] has been rewritten, the node of the
    resource is in the store and the payload has been stringified. *)
Theorem get_processing_undocumented_class :
  forall (py_eval : string -> outcome pyval) (self : GraphOperations)
         (url : string) (w : world) (r_id r_type : pyval),
    length (url_segments self url) = 6 ->
    find_all "" [("id", owning_collection_id self url)] (store w) <> [] ->
    dict_get "@id" (obj w) = Some r_id ->
    dict_get "@type" (obj w) = Some r_type ->
    dict_get (py_str r_type) (parsed_classes (api_doc self)) = None ->
    snd (get_processing py_eval self url w) = Raise (KeyError (py_str r_type))
    /\ g_next (store (fst (get_processing py_eval self url w)))
       = S (g_next (store w))
    /\ In (mkNode (g_next (store w)) ("objects" ++ py_str r_type)
                  (py_str r_type ++ nth 5 (url_segments self url) EmptyString)
                  (props_of_dict (stringify (obj w))))
          (g_nodes (store (fst (get_processing py_eval self url w))))
    /\ obj (fst (get_processing py_eval self url w)) = stringify (obj w).
Proof.
  intros py_eval self url w r_id r_type Hlen Hseq Hid Hty Hnone.
  rewrite (get_processing_member_runs py_eval self url w r_id r_type
             Hlen Hseq Hid Hty). simpl.
  unfold member_outcome. rewrite Hnone.
  rewrite member_store_next, member_store_nodes.
  repeat split.
  apply in_or_app. right. apply in_or_app. right. now left.
Qed.

(** X4.  Whenever [get_processing] returns at a member URL, the caller's
    payload has been rewritten in place: same keys in the same order, every
    value a string, the values that were strings unchanged. *)
Theorem get_processing_stringifies_payload :
  forall (py_eval : string -> outcome pyval) (self : GraphOperations)
         (url : string) (w : world) (v : pyval),
    length (url_segments self url) = 6 ->
    snd (get_processing py_eval self url w) = Ok v ->
    obj (fst (get_processing py_eval self url w)) = stringify (obj w)
    /\ map fst (obj (fst (get_processing py_eval self url w))) = map fst (obj w)
    /\ Forall (fun kv => is_str (snd kv) = true)
              (obj (fst (get_processing py_eval self url w)))
    /\ (forall k s : string,
           dict_get k (obj w) = Some (PStr s) ->
           dict_get k (obj (fst (get_processing py_eval self url w)))
           = Some (PStr s)).
Proof.
  intros py_eval self url w v Hlen Hok.
  destruct (get_processing_member_cases py_eval self url w Hlen)
    as [[e He] | [r_id [r_type [Hseq [Hid Hty]]]]].
  - rewrite He in Hok. discriminate.
  - rewrite (get_processing_member_runs py_eval self url w r_id r_type
               Hlen Hseq Hid Hty). simpl.
    repeat split.
    + apply stringify_keys.
    + apply stringify_all_str.
    + intros k s Hk. exact (stringify_get_str k s (obj w) Hk).
Qed.

Lemma props_of_stringify_none (k : string) (d : dict) :
  dict_get k d = None -> dict_get k (props_of_dict (stringify d)) = None.
Proof.
  unfold props_of_dict, stringify.
  induction d as [| [k' x] d IH]; simpl; [reflexivity |].
  destruct (String.eqb k k'); [discriminate | exact IH].
Qed.

(** X5.  The member branch of [get_processing] never looks for a node of the
    same id: past its first write it adds exactly one node to the store, and
    the nodes that carry the payload's id are one more than before. *)
Theorem get_processing_adds_a_node :
  forall (py_eval : string -> outcome pyval) (self : GraphOperations)
         (url : string) (w : world) (r_id r_type : pyval),
    length (url_segments self url) = 6 ->
    find_all "" [("id", owning_collection_id self url)] (store w) <> [] ->
    dict_get "@id" (obj w) = Some r_id ->
    dict_get "@type" (obj w) = Some r_type ->
    dict_get "id" (obj w) = None ->
    g_pending (store w) = [] ->
    length (g_nodes (store (fst (get_processing py_eval self url w))))
    = S (length (g_nodes (store w)))
    /\ length (find_all "" [("id", py_str r_id)]
                 (store (fst (get_processing py_eval self url w))))
       = S (length (find_all "" [("id", py_str r_id)] (store w))).
Proof.
  intros py_eval self url w r_id r_type Hlen Hseq Hid Hty Hnoid Hpend.
  rewrite (get_processing_member_runs py_eval self url w r_id r_type
             Hlen Hseq Hid Hty). cbn [fst store].
  unfold find_all. rewrite member_store_nodes, Hpend, app_nil_l.
  split.
  - rewrite length_app. unfold set_property. cbn [g_nodes].
    rewrite length_map. simpl. lia.
  - rewrite filter_app, map_app, length_app, !length_map.
    rewrite <- (length_map n_key (filter _ (g_nodes (set_property _ _ _ _ _)))).
    rewrite (filter_id_after_set "" "" (owning_collection_id self url)
               (py_str r_id) "instances" _ (store w))
      by discriminate.
    rewrite length_map.
    assert (Hsel : selects "" [("id", py_str r_id)]
                     (mkNode (g_next (store w)) ("objects" ++ py_str r_type)
                        (py_str r_type ++ nth 5 (url_segments self url) EmptyString)
                        (props_of_dict (stringify (obj w)))) = true).
    { unfold selects, holds, attr. simpl.
      rewrite (props_of_stringify_none "id" (obj w) Hnoid).
      rewrite (props_of_dict_get_str "@id" (py_str r_id) (stringify (obj w))
                 (stringify_get "@id" r_id (obj w) Hid)).
      rewrite String.eqb_refl. reflexivity. }
    cbn [filter]. rewrite Hsel. cbn [length]. lia.
Qed.

(** X26.  Past its first write, the member branch of [get_processing] has
    overwritten the [instances] of every node that has the id of the owning
    collection with the text of a list of one element, the reference of the
    payload, whatever [instances] held before: the stored sequence is never
    read back. *)
Theorem get_processing_member_resets_instances :
  forall (py_eval : string -> outcome pyval) (self : GraphOperations)
         (url : string) (w : world) (r_id r_type : pyval),
    length (url_segments self url) = 6 ->
    find_all "" [("id", owning_collection_id self url)] (store w) <> [] ->
    dict_get "@id" (obj w) = Some r_id ->
    dict_get "@type" (obj w) = Some r_type ->
    exists added : list props,
      find_all "" [("id", owning_collection_id self url)]
               (store (fst (get_processing py_eval self url w)))
      = (map (dict_set "instances"
                (py_repr (PList [PDict [("@id", r_id); ("@type", r_type)]])))
             (find_all "" [("id", owning_collection_id self url)] (store w))
         ++ added)%list.
Proof.
  intros py_eval self url w r_id r_type Hlen Hfind Hid Hty.
  rewrite (get_processing_member_runs py_eval self url w r_id r_type
             Hlen Hfind Hid Hty). cbn [fst store].
  unfold find_all at 1. rewrite member_store_nodes.
  rewrite filter_app, map_app.
  eexists. f_equal.
  exact (find_all_after_set "" (owning_collection_id self url) "instances" _
           (store w) ltac:(discriminate) ltac:(discriminate)).
Qed.

(** *** The collection branch of [get_processing] *)

Lemma get_processing_collection_runs (py_eval : string -> outcome pyval)
      (self : GraphOperations) (url : string) (w : world) :
  length (url_segments self url) = 2 ->
  get_processing py_eval self url w
  = match dict_get "members" (obj w) with
    | Some v =>
        (mkWorld (set_property "collection" [("id", collection_id self url)]
                               "members" (py_str v) (store w))
                 (obj w) (log w),
         Ok (PList []))
    | None => (w, Raise (KeyError "members"))
    end.
Proof.
  intros Hlen. unfold get_processing. rewrite Hlen.
  change (Nat.eqb 2 6) with false. change (Nat.eqb 2 2) with true. cbv iota.
  fold (collection_id self url). run.
  destruct (dict_get "members" (obj w)); reflexivity.
Qed.

Lemma dict_set_idem {A : Type} (k : string) (v : A) (d : list (string * A)) :
  dict_set k v (dict_set k v d) = dict_set k v d.
Proof.
  induction d as [| [k' v'] d IH]; simpl.
  - rewrite String.eqb_refl. reflexivity.
  - destruct (String.eqb k k') eqn:E; simpl; rewrite E; [reflexivity |].
    rewrite IH. reflexivity.
Qed.

Lemma set_property_idem (m i k v : string) (g : graph) :
  "id" <> k -> "@id" <> k ->
  set_property m [("id", i)] k v (set_property m [("id", i)] k v g)
  = set_property m [("id", i)] k v g.
Proof.
  intros H1 H2. unfold set_property. simpl. f_equal.
  rewrite map_map. apply map_ext. intros n.
  destruct (selects m [("id", i)] n) eqn:E.
  - rewrite (selects_id_after_set m i k v n H1 H2), E. simpl.
    rewrite dict_set_idem. reflexivity.
  - rewrite E. reflexivity.
Qed.

(** X6.  At a collection URL, [get_processing] of a payload with [members]
    overwrites the [members] of every collection node of that id with the
    text of the payload's list, whatever they held; it creates nothing,
    leaves the payload alone and returns the empty list. *)
Theorem get_processing_collection_overwrites :
  forall (py_eval : string -> outcome pyval) (self : GraphOperations)
         (url : string) (w : world) (members : pyval),
    length (url_segments self url) = 2 ->
    dict_get "members" (obj w) = Some members ->
    snd (get_processing py_eval self url w) = Ok (PList [])
    /\ obj (fst (get_processing py_eval self url w)) = obj w
    /\ g_next (store (fst (get_processing py_eval self url w)))
       = g_next (store w)
    /\ find_all ":collection" [("id", collection_id self url)]
                (store (fst (get_processing py_eval self url w)))
       = map (dict_set "members" (py_str members))
             (find_all ":collection" [("id", collection_id self url)] (store w))
    /\ (forall p : props,
           In p (find_all ":collection" [("id", collection_id self url)]
                          (store (fst (get_processing py_eval self url w)))) ->
           dict_get "members" p = Some (py_str members)).
Proof.
  intros py_eval self url w members Hlen Hm.
  rewrite (get_processing_collection_runs py_eval self url w Hlen), Hm.
  cbn [fst snd store obj].
  assert (Hfind :
            find_all ":collection" [("id", collection_id self url)]
              (set_property "collection" [("id", collection_id self url)]
                            "members" (py_str members) (store w))
            = map (dict_set "members" (py_str members))
                  (find_all ":collection" [("id", collection_id self url)]
                            (store w))).
  { exact (find_all_after_set "collection" (collection_id self url) "members"
             (py_str members) (store w) ltac:(discriminate) ltac:(discriminate)). }
  repeat split.
  - exact Hfind.
  - intros p Hp. rewrite Hfind in Hp. apply in_map_iff in Hp.
    destruct Hp as [p0 [<- _]]. apply dict_get_set_same.
Qed.

(** X7.  The collection branch of [get_processing] is idempotent: a second
    call with the same payload leaves the world that the first call left. *)
Theorem get_processing_collection_idempotent :
  forall (py_eval : string -> outcome pyval) (self : GraphOperations)
         (url : string) (w : world),
    length (url_segments self url) = 2 ->
    get_processing py_eval self url (fst (get_processing py_eval self url w))
    = get_processing py_eval self url w.
Proof.
  intros py_eval self url w Hlen.
  rewrite !(get_processing_collection_runs py_eval self url _ Hlen).
  destruct (dict_get "members" (obj w)) as [v |] eqn:Hm; cbn [fst obj store log].
  - rewrite Hm.
    rewrite set_property_idem by discriminate. reflexivity.
  - rewrite Hm. reflexivity.
Qed.

(** X8.  At a collection URL, a payload without [members] makes
    [get_processing] raise KeyError for that key, the world left as it
    was. *)
Theorem get_processing_collection_without_members :
  forall (py_eval : string -> outcome pyval) (self : GraphOperations)
         (url : string) (w : world),
    length (url_segments self url) = 2 ->
    dict_get "members" (obj w) = None ->
    get_processing py_eval self url w = (w, Raise (KeyError "members")).
Proof.
  intros py_eval self url w Hlen Hm.
  rewrite (get_processing_collection_runs py_eval self url w Hlen), Hm.
  reflexivity.
Qed.

(** *** Trailing slashes *)

Lemma rstrip_snoc (c : ascii) (s : string) :
  rstrip c (s ++ String c EmptyString) = rstrip c s.
Proof.
  induction s as [| a s IH]; simpl.
  - rewrite Ascii.eqb_refl. reflexivity.
  - rewrite IH. reflexivity.
Qed.

(** X9.  [get_processing] does not see a trailing slash: with the URL
    followed by a slash it does exactly what it does with the URL. *)
Theorem get_processing_ignores_trailing_slash :
  forall (py_eval : string -> outcome pyval) (self : GraphOperations)
         (url : string) (w : world),
    get_processing py_eval self (url ++ "/") w
    = get_processing py_eval self url w.
Proof.
  intros py_eval self url w.
  assert (Hseg : url_segments self (url ++ "/") = url_segments self url).
  { unfold url_segments. rewrite rstrip_snoc. reflexivity. }
  unfold get_processing. rewrite Hseg. reflexivity.
Qed.

(** *** [get_resource] *)

Lemma falsy_snoc (url : string) :
  url <> EmptyString -> falsy (Some (url ++ "/")) = falsy (Some url).
Proof. destruct url; [contradiction | reflexivity]. Qed.

(** X10.  [get_resource] by URL does not see a trailing slash either. *)
Theorem get_resource_ignores_trailing_slash :
  forall (self : GraphOperations) (url : string) (ig : option InitialGraph)
         (resource_type : option string) (filters : dict) (w : world),
    url <> EmptyString ->
    get_resource self (Some (url ++ "/")) ig resource_type filters w
    = get_resource self (Some url) ig resource_type filters w.
Proof.
  intros self url ig resource_type filters w Hne.
  unfold get_resource.
  rewrite (falsy_snoc url Hne).
  cbn [text_of]. rewrite rstrip_snoc. reflexivity.
Qed.

(** X11.  [get_resource] only reads: whatever its arguments, and whether it
    returns or raises, the store, the payload and the log are as before. *)
Theorem get_resource_reads_only :
  forall (self : GraphOperations) (url : option string)
         (ig : option InitialGraph) (resource_type : option string)
         (filters : dict) (w : world),
    fst (get_resource self url ig resource_type filters w) = w.
Proof.
  intros self url ig resource_type filters w. unfold get_resource.
  destruct (falsy url) eqn:Hu; destruct (falsy resource_type) eqn:Ht;
    cbn [andb negb]; try reflexivity.
  - destruct ig as [ig |]; [| reflexivity].
    destruct (mem _ (collection_endpoints ig)); [reflexivity |].
    run. destruct (second_last _) as [prev | e]; simpl; [| reflexivity].
    destruct (mem prev (collection_endpoints ig)); [reflexivity |].
    destruct (mem prev (class_endpoints ig)); [| reflexivity].
    simpl. destruct (find_all _ _ _) as [| p [| q r]]; reflexivity.
  - destruct ig as [ig |]; [| reflexivity].
    destruct (mem _ (collection_endpoints ig)); [reflexivity |].
    run. destruct (second_last _) as [prev | e]; simpl; [| reflexivity].
    destruct (mem prev (collection_endpoints ig)); [reflexivity |].
    destruct (mem prev (class_endpoints ig)); [| reflexivity].
    simpl. destruct (find_all _ _ _) as [| p [| q r]]; reflexivity.
Qed.

(** X12.  [get_resource] raises its configuration error exactly when it is
    given neither a URL nor a type (absent or empty). *)
Theorem get_resource_configuration_error_iff :
  forall (self : GraphOperations) (url : option string)
         (ig : option InitialGraph) (resource_type : option string)
         (filters : dict) (w : world),
    snd (get_resource self url ig resource_type filters w)
    = Raise (PyException "ERR: You should set at leasturl OR resource_type")
    <-> (falsy url = true /\ falsy resource_type = true).
Proof.
  intros self url ig resource_type filters w. unfold get_resource.
  destruct (falsy url) eqn:Hu; destruct (falsy resource_type) eqn:Ht;
    cbn [andb negb].
  - split; [intros _; split; reflexivity | reflexivity].
  - split; [discriminate | intros [_ H]; discriminate].
  - split; [| intros [H _]; discriminate].
    destruct ig as [ig |]; [| discriminate].
    destruct (mem _ (collection_endpoints ig)); [discriminate |].
    run. destruct (second_last _) as [prev | e] eqn:Hs; simpl.
    + destruct (mem prev (collection_endpoints ig)); [discriminate |].
      destruct (mem prev (class_endpoints ig)); [| discriminate].
      simpl. destruct (find_all _ _ _) as [| p [| q r]]; discriminate.
    + unfold second_last in Hs.
      destruct (rev _) as [| x [| y r]]; try discriminate;
        injection Hs as <-; discriminate.
  - split; [| intros [H _]; discriminate].
    destruct ig as [ig |]; [| discriminate].
    destruct (mem _ (collection_endpoints ig)); [discriminate |].
    run. destruct (second_last _) as [prev | e] eqn:Hs; simpl.
    + destruct (mem prev (collection_endpoints ig)); [discriminate |].
      destruct (mem prev (class_endpoints ig)); [| discriminate].
      simpl. destruct (find_all _ _ _) as [| p [| q r]]; discriminate.
    + unfold second_last in Hs.
      destruct (rev _) as [| x [| y r]]; try discriminate;
        injection Hs as <-; discriminate.
Qed.

(** [get_resource] with a URL and the initial graph. *)
Lemma get_resource_by_url_runs (self : GraphOperations) (url : string)
      (ig : InitialGraph) (resource_type : option string) (filters : dict)
      (w : world) :
  url <> EmptyString ->
  get_resource self (Some url) (Some ig) resource_type filters w
  = (w,
     let url_list := split "/" (rstrip "/" url) in
     if mem (last_str url_list) (collection_endpoints ig) then Ok PNone
     else match second_last url_list with
          | Raise e => Raise e
          | Ok prev =>
              if mem prev (collection_endpoints ig) then Ok PNone
              else if mem prev (class_endpoints ig) then
                match find_all "" [("id", "/" ++ last_str url_list)] (store w) with
                | [p] => Ok (dict_of_props p)
                | _ => Ok PNone
                end
              else Ok PNone
          end).
Proof.
  intros Hne. unfold get_resource.
  assert (Hf : falsy (Some url) = false) by (destruct url; [contradiction | reflexivity]).
  rewrite Hf. cbn [andb negb text_of].
  destruct (mem _ (collection_endpoints ig)); [reflexivity |].
  run. destruct (second_last _) as [prev | e]; simpl; [| reflexivity].
  destruct (mem prev (collection_endpoints ig)); [reflexivity |].
  destruct (mem prev (class_endpoints ig)); [| reflexivity].
  simpl. destruct (find_all _ _ _) as [| p [| q r]]; reflexivity.
Qed.

(** X13.  A URL whose last or last-but-one segment is a collection endpoint
    is never answered from the store: [get_resource] returns [None],
    whatever the store holds. *)
Theorem get_resource_collection_is_a_miss :
  forall (self : GraphOperations) (url : string) (ig : InitialGraph)
         (resource_type : option string) (filters : dict) (w : world),
    url <> EmptyString ->
    (mem (last_str (split "/" (rstrip "/" url))) (collection_endpoints ig) = true
     \/ exists prev : string,
          second_last (split "/" (rstrip "/" url)) = Ok prev
          /\ mem prev (collection_endpoints ig) = true) ->
    get_resource self (Some url) (Some ig) resource_type filters w
    = (w, Ok PNone).
Proof.
  intros self url ig resource_type filters w Hne H.
  rewrite (get_resource_by_url_runs self url ig resource_type filters w Hne).
  cbv zeta.
  destruct (mem (last_str _) (collection_endpoints ig)) eqn:Hl; [reflexivity |].
  destruct H as [H | [prev [Hs Hp]]]; [discriminate |].
  rewrite Hs, Hp. reflexivity.
Qed.

Lemma split_single (c : ascii) (s : string) :
  has_char c s = false -> split c s = [s].
Proof.
  induction s as [| a s IH]; simpl; [reflexivity |].
  intros H. apply orb_false_iff in H. destruct H as [Ha Hs].
  rewrite Ha, (IH Hs). reflexivity.
Qed.

(** X14.  A URL without any slash (trailing ones apart) that is not a
    collection endpoint makes [get_resource] raise IndexError: there is no
    last-but-one segment. *)
Theorem get_resource_single_segment_raises :
  forall (self : GraphOperations) (url : string) (ig : InitialGraph)
         (resource_type : option string) (filters : dict) (w : world),
    url <> EmptyString ->
    has_char "/" (rstrip "/" url) = false ->
    mem (rstrip "/" url) (collection_endpoints ig) = false ->
    get_resource self (Some url) (Some ig) resource_type filters w
    = (w, Raise IndexError).
Proof.
  intros self url ig resource_type filters w Hne Hno Hmem.
  rewrite (get_resource_by_url_runs self url ig resource_type filters w Hne).
  cbv zeta. rewrite (split_single "/" _ Hno).
  unfold last_str. cbn [last]. rewrite Hmem. reflexivity.
Qed.

(** X15.  For a URL whose last-but-one segment is a class endpoint (and no
    collection endpoint is involved), [get_resource] answers with the
    property map of the node whose id is a slash and the last segment only
    when exactly one node has that id; with none, or with several, it
    returns [None]. *)
Theorem get_resource_wants_a_single_node :
  forall (self : GraphOperations) (url : string) (ig : InitialGraph)
         (resource_type : option string) (filters : dict) (w : world)
         (prev : string),
    url <> EmptyString ->
    mem (last_str (split "/" (rstrip "/" url))) (collection_endpoints ig) = false ->
    second_last (split "/" (rstrip "/" url)) = Ok prev ->
    mem prev (collection_endpoints ig) = false ->
    mem prev (class_endpoints ig) = true ->
    (forall p : props,
        find_all "" [("id", "/" ++ last_str (split "/" (rstrip "/" url)))] (store w)
        = [p] ->
        snd (get_resource self (Some url) (Some ig) resource_type filters w)
        = Ok (dict_of_props p))
    /\ (length (find_all "" [("id", "/" ++ last_str (split "/" (rstrip "/" url)))]
                         (store w)) <> 1 ->
        snd (get_resource self (Some url) (Some ig) resource_type filters w)
        = Ok PNone).
Proof.
  intros self url ig resource_type filters w prev Hne Hl Hs Hp Hc.
  rewrite (get_resource_by_url_runs self url ig resource_type filters w Hne).
  cbv zeta. rewrite Hl, Hs, Hp, Hc. cbn [snd]. split.
  - intros p Hfind. rewrite Hfind. reflexivity.
  - intros Hlen.
    destruct (find_all _ _ _) as [| p [| q r]]; try reflexivity.
    simpl in Hlen. contradiction.
Qed.



(** *** [delete_processing] *)

Lemma delete_processing_runs (py_eval : string -> outcome pyval)
      (self : GraphOperations) (url : string) (w : world)
      (entrypoint resource_endpoint resource_id : string) :
  url_segments self url = [entrypoint; resource_endpoint; resource_id] ->
  delete_processing py_eval self url w
  = let g1 := delete_nodes "" [("id", url_object_id url)] (store w) in
    let collection :=
      vocabulary self ++ ":" ++ entrypoint ++ "/" ++ resource_endpoint in
    match find_all ":collection" [("id", collection)] g1 with
    | [] => (mkWorld g1 (obj w) (log w), Raise TypeError)
    | _ :: _ =>
        (mkWorld (set_property "collection" [("id", collection)]
                               "members" (py_repr (PList [])) g1)
                 (obj w) (log w),
         Ok PNone)
    end.
Proof.
  intros Hseg. unfold delete_processing.
  rewrite Hseg. run. rewrite read_property_runs.
  destruct (find_all _ _ _); reflexivity.
Qed.

Lemma find_all_after_delete_same (i : string) (g : graph) :
  find_all "" [("id", i)] (delete_nodes "" [("id", i)] g) = [].
Proof.
  unfold find_all, delete_nodes. simpl.
  induction (g_nodes g) as [| n l IH]; simpl; [reflexivity |].
  destruct (selects "" [("id", i)] n) eqn:E; simpl; [exact IH |].
  rewrite E. exact IH.
Qed.

Lemma find_all_after_delete_other (m i i' : string) (g : graph) :
  i <> i' ->
  find_all m [("id", i)] (delete_nodes "" [("id", i')] g)
  = find_all m [("id", i)] g.
Proof.
  intros Hne. unfold find_all, delete_nodes. simpl. f_equal.
  induction (g_nodes g) as [| n l IH]; simpl; [reflexivity |].
  destruct (selects "" [("id", i')] n) eqn:E'; simpl.
  - destruct (selects m [("id", i)] n) eqn:E; [| exact IH].
    exfalso. unfold selects, holds in E, E'. simpl in E, E'.
    destruct (attr "id" (n_props n)) as [x |];
      [| rewrite andb_false_r in E; discriminate].
    rewrite andb_true_r in E, E'.
    apply andb_true_iff in E. destruct E as [_ E].
    apply String.eqb_eq in E. apply String.eqb_eq in E'. congruence.
  - rewrite IH. reflexivity.
Qed.

Lemma find_all_empty_after_set (m i i' k v : string) (g : graph) :
  "id" <> k -> "@id" <> k ->
  find_all "" [("id", i')] g = [] ->
  find_all "" [("id", i')] (set_property m [("id", i)] k v g) = [].
Proof.
  intros H1 H2 Hempty. unfold find_all in *.
  pose proof (filter_id_after_set m "" i i' k v g H1 H2) as Hkeys.
  destruct (filter (selects "" [("id", i')]) (g_nodes g)); [| discriminate].
  destruct (filter _ (g_nodes (set_property _ _ _ _ _))); [reflexivity |].
  discriminate.
Qed.

(** X17.  After [delete_processing], whether it returned or raised and
    whatever the shape of the URL, the store holds no node whose id is the
    id derived from the URL. *)
Theorem delete_processing_leaves_no_node_of_the_id :
  forall (py_eval : string -> outcome pyval) (self : GraphOperations)
         (url : string) (w : world),
    find_all "" [("id", url_object_id url)]
             (store (fst (delete_processing py_eval self url w)))
    = [].
Proof.
  intros py_eval self url w.
  destruct (url_segments self url) as [| a [| b [| c [| d r]]]] eqn:Hseg;
    try (rewrite delete_processing_bad_shape
           by (rewrite Hseg; simpl; lia);
         apply find_all_after_delete_same).
  rewrite (delete_processing_runs py_eval self url w a b c Hseg). cbv zeta.
  destruct (find_all ":collection" _ _);
    [apply find_all_after_delete_same |].
  cbn [fst store].
  apply find_all_empty_after_set; try discriminate.
  apply find_all_after_delete_same.
Qed.

Lemma only_property_changed_refl (key : string) (g : graph) :
  only_property_changed key g g.
Proof.
  repeat split; try apply incl_refl.
  intros n Hn. exists n. repeat split. exact Hn.
Qed.

Lemma only_property_changed_delete (key m : string) (wc : where_clause)
      (g0 g : graph) :
  only_property_changed key g0 g ->
  only_property_changed key g0 (delete_nodes m wc g).
Proof.
  intros [Hn [Hp [He Hnodes]]]. unfold delete_nodes.
  repeat split; simpl; try assumption.
  - intros e Hin. apply filter_In in Hin. exact (He e (proj1 Hin)).
  - intros n' Hin. apply filter_In in Hin. exact (Hnodes n' (proj1 Hin)).
Qed.

Lemma only_property_changed_set (key m : string) (wc : where_clause)
      (v : string) (g0 g : graph) :
  only_property_changed key g0 g ->
  only_property_changed key g0 (set_property m wc key v g).
Proof.
  intros [Hn [Hp [He Hnodes]]]. unfold set_property.
  repeat split; simpl; try assumption.
  intros n' Hin. apply in_map_iff in Hin. destruct Hin as [n1 [<- Hin1]].
  destruct (Hnodes n1 Hin1) as [n [Hin [Hk [Hl [Ha Hprops]]]]].
  exists n. destruct (selects m wc n1); simpl; repeat split; try assumption.
  intros k Hne. rewrite dict_get_set_other by exact Hne. exact (Hprops k Hne).
Qed.

Lemma delete_processing_store (py_eval : string -> outcome pyval)
      (self : GraphOperations) (url : string) (w : world) :
  only_property_changed "members" (store w)
    (store (fst (delete_processing py_eval self url w)))
  /\ obj (fst (delete_processing py_eval self url w)) = obj w.
Proof.
  assert (Hdel : only_property_changed "members" (store w)
                   (delete_nodes "" [("id", url_object_id url)] (store w)))
    by (apply only_property_changed_delete, only_property_changed_refl).
  destruct (url_segments self url) as [| a [| b [| c [| d r]]]] eqn:Hseg;
    try (rewrite delete_processing_bad_shape
           by (rewrite Hseg; simpl; lia);
         split; [exact Hdel | reflexivity]).
  rewrite (delete_processing_runs py_eval self url w a b c Hseg). cbv zeta.
  destruct (find_all ":collection" _ _);
    [split; [exact Hdel | reflexivity] |].
  split; [| reflexivity]. cbn [fst store].
  apply only_property_changed_set. exact Hdel.
Qed.

(** X18.  [delete_processing] creates no node and no edge, and on the nodes
    it leaves in the store it changes the property [members] at most: every
    other property, [instances] among them, is as it was.  The payload is
    not touched. *)
Theorem delete_processing_changes_members_only :
  forall (py_eval : string -> outcome pyval) (self : GraphOperations)
         (url : string) (w : world),
    only_property_changed "members" (store w)
      (store (fst (delete_processing py_eval self url w)))
    /\ obj (fst (delete_processing py_eval self url w)) = obj w.
Proof.
  intros py_eval self url w. exact (delete_processing_store py_eval self url w).
Qed.

(** *** The members that [delete_processing] writes back *)

Lemma py_eq_dict_get (da : dict) (b : pyval) (k s : string) :
  py_eq (PDict da) b = true ->
  dict_get k da = Some (PStr s) ->
  exists db : dict, b = PDict db /\ dict_get k db = Some (PStr s).
Proof.
  destruct b as [| | | | | db]; simpl; try discriminate.
  intros H Hget. exists db. split; [reflexivity |].
  apply andb_true_iff in H. destruct H as [_ H].
  induction da as [| [k' x] da IH]; simpl in *; [discriminate |].
  destruct (dict_get k' db) as [y |] eqn:Hy; [| discriminate].
  apply andb_true_iff in H. destruct H as [Hxy Hrest].
  destruct (String.eqb k k') eqn:E.
  - apply String.eqb_eq in E. subst k'. injection Hget as ->.
    rewrite Hy. simpl in Hxy.
    destruct y; try discriminate.
    apply String.eqb_eq in Hxy. now subst.
  - exact (IH Hrest Hget).
Qed.

Lemma remove_first_incl (x : pyval) (l : list pyval) :
  incl (remove_first x l) l.
Proof.
  induction l as [| y l IH]; simpl; [apply incl_refl |].
  destruct (py_eq y x).
  - apply incl_tl, incl_refl.
  - intros z [<- | Hz]; [now left | right; exact (IH z Hz)].
Qed.

Lemma remove_first_keeps (x m : pyval) (l : list pyval) :
  py_eq m x = false -> In m l -> In m (remove_first x l).
Proof.
  intros Hne. induction l as [| y l IH]; simpl; [trivial |].
  intros [<- | Hin].
  - rewrite Hne. now left.
  - destruct (py_eq y x); [exact Hin | right; exact (IH Hin)].
Qed.

Lemma subscript_str (m : pyval) (k s : string) :
  subscript m k = Ok (PStr s) ->
  exists d : dict, m = PDict d /\ dict_get k d = Some (PStr s).
Proof.
  destruct m as [| | | | | d]; simpl; try discriminate.
  destruct (dict_get k d) as [x |] eqn:E; [| discriminate].
  intros H. injection H as ->. exists d. split; [reflexivity | exact E].
Qed.

(** What the walk over the members can do to the list: it only removes, and
    it never removes a member whose id is a string that does not contain
    [resource_id]. *)
Lemma remove_matching_spec (resource_id : string) :
  forall (fuel i : nat) (l l' : list pyval),
    remove_matching fuel i resource_id l = Ok l' ->
    incl l' l
    /\ length l' <= length l
    /\ forall (m : pyval) (s : string),
        In m l -> subscript m "@id" = Ok (PStr s) ->
        contains resource_id s = false -> In m l'.
Proof.
  induction fuel as [| f IH]; intros i l l' H; simpl in H.
  - injection H as <-. repeat split; [apply incl_refl | lia | trivial].
  - destruct (nth_error l i) as [member |] eqn:Hnth;
      [| injection H as <-; repeat split; [apply incl_refl | lia | trivial]].
    destruct (subscript member "@id") as [v | e] eqn:Hsub; [| discriminate].
    destruct (py_in resource_id v) as [[|] | e] eqn:Hin; [| | discriminate].
    + destruct (IH (S i) _ l' H) as [Hincl [Hlen Hkeep]].
      repeat split.
      * intros z Hz. exact (remove_first_incl member l z (Hincl z Hz)).
      * pose proof (remove_first_length member l). lia.
      * intros m s Hm Hms Hno. apply (Hkeep m s); try assumption.
        apply remove_first_keeps; [| exact Hm].
        destruct (py_eq m member) eqn:Heq; [| reflexivity].
        exfalso.
        destruct (subscript_str m "@id" s Hms) as [dm [-> Hdm]].
        destruct (py_eq_dict_get dm member "@id" s Heq Hdm) as [db [-> Hdb]].
        simpl in Hsub. rewrite Hdb in Hsub. injection Hsub as <-.
        simpl in Hin. rewrite Hno in Hin. discriminate.
    + exact (IH (S i) l l' H).
Qed.

Lemma remove_matching_nothing (resource_id : string) (l : list pyval) :
  Forall (fun m => exists s : string,
              subscript m "@id" = Ok (PStr s)
              /\ contains resource_id s = false) l ->
  forall fuel i : nat, remove_matching fuel i resource_id l = Ok l.
Proof.
  intros Hall. rewrite Forall_forall in Hall.
  induction fuel as [| f IH]; intros i; simpl; [reflexivity |].
  destruct (nth_error l i) as [member |] eqn:Hnth; [| reflexivity].
  destruct (Hall member (nth_error_In l i Hnth)) as [s [Hs Hno]].
  rewrite Hs. simpl. rewrite Hno. apply IH.
Qed.

(** X19.  Whenever the store has a collection node for the URL,
    [delete_processing] returns and writes the text of the empty list into
    its [members], whatever they were: the members are never evaluated, and
    every member is removed, not only the deleted resource. *)
Theorem delete_processing_empties_members :
  forall (py_eval : string -> outcome pyval) (self : GraphOperations)
         (url : string) (w : world)
         (entrypoint resource_endpoint resource_id : string),
    url_segments self url = [entrypoint; resource_endpoint; resource_id] ->
    vocabulary self ++ ":" ++ entrypoint ++ "/" ++ resource_endpoint
    <> url_object_id url ->
    find_all ":collection"
      [("id", vocabulary self ++ ":" ++ entrypoint ++ "/" ++ resource_endpoint)]
      (store w) <> [] ->
    snd (delete_processing py_eval self url w) = Ok PNone
    /\ find_all ":collection"
         [("id", vocabulary self ++ ":" ++ entrypoint ++ "/" ++ resource_endpoint)]
         (store (fst (delete_processing py_eval self url w)))
       = map (dict_set "members" (py_repr (PList [])))
             (find_all ":collection"
                [("id", vocabulary self ++ ":" ++ entrypoint ++ "/"
                          ++ resource_endpoint)]
                (store w))
    /\ (forall p : props,
           In p (find_all ":collection"
                   [("id", vocabulary self ++ ":" ++ entrypoint ++ "/"
                             ++ resource_endpoint)]
                   (store (fst (delete_processing py_eval self url w)))) ->
           dict_get "members" p = Some (py_repr (PList []))).
Proof.
  intros py_eval self url w ep re rid Hseg Hne Hsome.
  rewrite (delete_processing_runs py_eval self url w ep re rid Hseg). cbv zeta.
  rewrite (find_all_after_delete_other ":collection" _ _ (store w) Hne).
  destruct (find_all ":collection" _ (store w)) as [| p0 ps] eqn:Hfind;
    [contradiction |].
  cbn [fst snd store].
  assert (Hafter :
            find_all ":collection"
              [("id", vocabulary self ++ ":" ++ ep ++ "/" ++ re)]
              (set_property "collection"
                 [("id", vocabulary self ++ ":" ++ ep ++ "/" ++ re)]
                 "members" (py_repr (PList []))
                 (delete_nodes "" [("id", url_object_id url)] (store w)))
            = map (dict_set "members" (py_repr (PList []))) (p0 :: ps)).
  { etransitivity;
      [exact (find_all_after_set "collection" _ "members" _ _
                ltac:(discriminate) ltac:(discriminate)) |].
    f_equal. rewrite <- Hfind.
    exact (find_all_after_delete_other ":collection" _ _ (store w) Hne). }
  split; [reflexivity |]. split; [exact Hafter |].
  intros p Hp. rewrite Hafter in Hp. apply in_map_iff in Hp.
  destruct Hp as [q [<- _]]. apply dict_get_set_same.
Qed.

(** *** [post_processing] and [put_processing] *)

(** X21.  [post_processing] never stores anything: whatever the URL and the
    payload, it returns [None] or raises, it creates no node and no edge,
    the nodes it leaves differ from the old ones in [members] at most, and
    the only change to the caller's payload is the id written into it. *)
Theorem post_processing_only_deletes :
  forall (py_eval : string -> outcome pyval) (self : GraphOperations)
         (url : string) (w : world),
    (snd (post_processing py_eval self url w) = Ok PNone
     \/ exists e : exn, snd (post_processing py_eval self url w) = Raise e)
    /\ only_property_changed "members" (store w)
         (store (fst (post_processing py_eval self url w)))
    /\ obj (fst (post_processing py_eval self url w))
       = dict_set "@id" (PStr (url_object_id url)) (obj w).
Proof.
  intros py_eval self url w.
  rewrite post_processing_runs.
  set (w1 := mkWorld (store w)
                     (dict_set "@id" (PStr (url_object_id url)) (obj w)) (log w)).
  destruct (delete_processing_store py_eval self url w1) as [Hstore Hobj].
  destruct (Nat.eq_dec (length (url_segments self url)) 3) as [H3 | H3].
  - destruct (delete_processing py_eval self url w1) as [w2 [v | e]];
      cbn [fst] in *.
    + rewrite get_processing_unsupported by lia. cbn [fst snd store obj].
      split; [now left | split; [exact Hstore | exact Hobj]].
    + cbn [fst snd].
      split; [right; now exists e | split; [exact Hstore | exact Hobj]].
  - rewrite delete_processing_bad_shape in * by assumption.
    cbn [fst snd] in *.
    split; [right; now exists ValueError | split; [exact Hstore | exact Hobj]].
Qed.

Lemma dict_set_keys_absent {A : Type} (k : string) (v : A)
      (d : list (string * A)) :
  dict_get k d = None -> map fst (dict_set k v d) = (map fst d ++ [k])%list.
Proof.
  induction d as [| [k' v'] d IH]; simpl; [reflexivity |].
  destruct (String.eqb k k'); [discriminate |].
  intros H. simpl. rewrite (IH H). reflexivity.
Qed.

(** X22.  For a payload that has no ['@id'], [put_processing] adds the key
    at the end of the caller's payload, with the id derived from the URL as
    its value; the other keys keep their order.  This holds whether the call
    returns or raises. *)
Theorem put_processing_adds_id_key :
  forall (py_eval : string -> outcome pyval) (self : GraphOperations)
         (url : string) (w : world),
    dict_get "@id" (obj w) = None ->
    map fst (obj (fst (put_processing py_eval self url w)))
    = (map fst (obj w) ++ ["@id"])%list
    /\ dict_get "@id" (obj (fst (put_processing py_eval self url w)))
       = Some (PStr (url_object_id url)).
Proof.
  intros py_eval self url w Hnone.
  rewrite put_processing_runs.
  set (w1 := mkWorld (store w)
                     (dict_set "@id" (PStr (url_object_id url)) (obj w)) (log w)).
  assert (H1 : id_written (map n_key (g_nodes (store w) ++ g_pending (store w))%list)
                          (url_object_id url) (map fst (obj w) ++ ["@id"])%list w1).
  { repeat split; cbn [obj store w1].
    - apply dict_get_set_same.
    - exact (dict_set_keys_absent "@id" _ (obj w) Hnone).
    - apply only_new_id_start. }
  destruct (get_processing_keeps_id py_eval self _ _ _ url w1 H1)
    as [Hid [Hkeys _]].
  split; assumption.
Qed.

(** *** What [get_processing] never does *)

Lemma nothing_removed_refl (g : graph) : nothing_removed g g.
Proof.
  split; [apply incl_refl |].
  intros n Hn. exists n. repeat split. exact Hn.
Qed.

Lemma nothing_removed_set (m : string) (wc : where_clause) (k v : string)
      (g : graph) :
  k = "instances" \/ k = "members" ->
  nothing_removed g (set_property m wc k v g).
Proof.
  intros Hk. unfold set_property. split; [apply incl_refl |]. simpl.
  intros n Hn.
  exists (if selects m wc n
          then mkNode (n_key n) (n_label n) (n_alias n) (dict_set k v (n_props n))
          else n).
  split; [apply in_map_iff; exists n; split; [reflexivity | exact Hn] |].
  destruct (selects m wc n); simpl; repeat split.
  intros k' Hi Hm. apply dict_get_set_other.
  destruct Hk as [-> | ->]; assumption.
Qed.

Lemma member_store_edges (self : GraphOperations) (url : string) (g : graph)
      (payload : dict) (r_id r_type : pyval) :
  incl (g_edges g) (g_edges (member_store self url g payload r_id r_type)).
Proof.
  unfold member_store, create_edge.
  destruct (filter _ _); [apply incl_refl |].
  destruct (filter _ _); [apply incl_refl |].
  simpl. apply incl_appl, incl_refl.
Qed.

(** X23.  [get_processing] never removes anything: whatever the URL and the
    payload, and whether it returns or raises, every edge of the store is
    still there, and so is every node, with the same label and the same
    properties except, at most, [instances] and [members]. *)
Theorem get_processing_removes_nothing :
  forall (py_eval : string -> outcome pyval) (self : GraphOperations)
         (url : string) (w : world),
    nothing_removed (store w) (store (fst (get_processing py_eval self url w))).
Proof.
  intros py_eval self url w.
  destruct (Nat.eq_dec (length (url_segments self url)) 6) as [H6 | H6].
  - destruct (get_processing_member_cases py_eval self url w H6)
      as [[e He] | [r_id [r_type [Hseq [Hid Hty]]]]].
    + rewrite He. apply nothing_removed_refl.
    + rewrite (get_processing_member_runs py_eval self url w r_id r_type
                 H6 Hseq Hid Hty). cbn [fst store].
      split; [apply member_store_edges |].
      intros n Hn.
      destruct (nothing_removed_set "" [("id", owning_collection_id self url)]
                  "instances"
                  (py_repr (PList [member_reference r_id r_type]))
                  (store w) (or_introl eq_refl)) as [_ Hnodes].
      destruct (Hnodes n Hn) as [n' [Hin' Hrest]].
      exists n'. split; [| exact Hrest].
      rewrite member_store_nodes. apply in_or_app. left. exact Hin'.
  - destruct (Nat.eq_dec (length (url_segments self url)) 2) as [H2 | H2].
    + rewrite (get_processing_collection_runs py_eval self url w H2).
      destruct (dict_get "members" (obj w)); cbn [fst store].
      * apply nothing_removed_set. now right.
      * apply nothing_removed_refl.
    + rewrite get_processing_unsupported by assumption.
      apply nothing_removed_refl.
Qed.

(** *** The round trip that the code supports *)

(** X24.  When the payload's id is a slash followed by the last segment of
    the URL, no node of that id is in the store yet and the payload has no
    [id] key of its own, then after [get_processing] at the member URL
    [get_resource] for that URL (a class endpoint before the last segment, no
    collection endpoint involved) returns the caller's payload, every value
    turned into a string. *)
Theorem get_processing_then_lookup_by_url :
  forall (py_eval : string -> outcome pyval) (self : GraphOperations)
         (url : string) (w : world) (r_type : pyval)
         (ig : InitialGraph) (prev : string),
    length (url_segments self url) = 6 ->
    find_all "" [("id", owning_collection_id self url)] (store w) <> [] ->
    dict_get "@id" (obj w)
    = Some (PStr ("/" ++ last_str (split "/" (rstrip "/" url)))) ->
    dict_get "@type" (obj w) = Some r_type ->
    dict_get "id" (obj w) = None ->
    g_pending (store w) = [] ->
    find_all "" [("id", "/" ++ last_str (split "/" (rstrip "/" url)))] (store w)
    = [] ->
    url <> EmptyString ->
    mem (last_str (split "/" (rstrip "/" url))) (collection_endpoints ig) = false ->
    second_last (split "/" (rstrip "/" url)) = Ok prev ->
    mem prev (collection_endpoints ig) = false ->
    mem prev (class_endpoints ig) = true ->
    snd (get_resource self (Some url) (Some ig) None []
           (fst (get_processing py_eval self url w)))
    = Ok (PDict (stringify (obj w))).
Proof.
  intros py_eval self url w r_type ig prev
         Hlen Hseq Hid Hty Hnoid Hpend Hfresh Hne Hl Hs Hp Hc.
  set (i := "/" ++ last_str (split "/" (rstrip "/" url))) in *.
  rewrite (get_processing_member_runs py_eval self url w (PStr i) r_type
             Hlen Hseq Hid Hty). cbn [fst].
  rewrite (get_resource_by_url_runs self url ig None [] _ Hne).
  cbv zeta. rewrite Hl, Hs, Hp, Hc. fold i. cbn [snd store].
  assert (Hfind :
            find_all "" [("id", i)]
              (member_store self url (store w) (obj w) (PStr i) r_type)
            = [props_of_dict (stringify (obj w))]).
  { unfold find_all. rewrite member_store_nodes, Hpend, app_nil_l.
    rewrite filter_app, map_app.
    assert (Hold : filter (selects "" [("id", i)])
                     (g_nodes (set_property "" [("id", owning_collection_id self url)]
                                 "instances"
                                 (py_repr (PList [member_reference (PStr i) r_type]))
                                 (store w))) = []).
    { pose proof (filter_id_after_set "" "" (owning_collection_id self url) i
                    "instances"
                    (py_repr (PList [member_reference (PStr i) r_type]))
                    (store w) ltac:(discriminate) ltac:(discriminate)) as Hk.
      unfold find_all in Hfresh.
      destruct (filter (selects "" [("id", i)]) (g_nodes (store w)));
        [| discriminate].
      destruct (filter _ (g_nodes (set_property _ _ _ _ _)));
        [reflexivity | discriminate]. }
    rewrite Hold. cbn [map app filter].
    assert (Hsel : selects "" [("id", i)]
                     (mkNode (g_next (store w)) ("objects" ++ py_str r_type)
                        (py_str r_type ++ nth 5 (url_segments self url) EmptyString)
                        (props_of_dict (stringify (obj w)))) = true).
    { unfold selects, holds, attr. simpl.
      rewrite (props_of_stringify_none "id" (obj w) Hnoid).
      rewrite (props_of_dict_get_str "@id" i (stringify (obj w))
                 (stringify_get_str "@id" i (obj w) Hid)).
      rewrite String.eqb_refl. reflexivity. }
    rewrite Hsel. reflexivity. }
  rewrite Hfind. rewrite dict_of_props_stringify. reflexivity.
Qed.

(** *** [delete_processing] without its collection *)

Lemma find_all_none_after_delete (m m' : string) (wc wc' : where_clause)
      (g : graph) :
  find_all m wc g = [] -> find_all m wc (delete_nodes m' wc' g) = [].
Proof.
  unfold find_all, delete_nodes. simpl.
  induction (g_nodes g) as [| n l IH]; simpl; [reflexivity |].
  destruct (selects m wc n) eqn:E; [discriminate |].
  intros H. destruct (selects m' wc' n); simpl; [exact (IH H) |].
  rewrite E. exact (IH H).
Qed.

(** X25.  When the store has no collection node for the URL,
    [delete_processing] raises TypeError, but only after it has removed the
    nodes whose id is the id derived from the URL: the deletion stays. *)
Theorem delete_processing_without_collection :
  forall (py_eval : string -> outcome pyval) (self : GraphOperations)
         (url : string) (w : world)
         (entrypoint resource_endpoint resource_id : string),
    url_segments self url = [entrypoint; resource_endpoint; resource_id] ->
    find_all ":collection"
      [("id", vocabulary self ++ ":" ++ entrypoint ++ "/" ++ resource_endpoint)]
      (store w) = [] ->
    delete_processing py_eval self url w
    = (mkWorld (delete_nodes "" [("id", url_object_id url)] (store w))
               (obj w) (log w),
       Raise TypeError).
Proof.
  intros py_eval self url w ep re rid Hseg Hnone.
  rewrite (delete_processing_runs py_eval self url w ep re rid Hseg). cbv zeta.
  rewrite (find_all_none_after_delete ":collection" "" _ _ (store w) Hnone).
  reflexivity.
Qed.

(** *** The theorems above, at concrete worlds *)

Lemma get_processing_then_lookup_by_type_witness :
  exists found : list pyval,
    snd (get_resource Scenario.far_agent None None (Some "Drone") []
           (fst (get_processing Scenario.eval_grow Scenario.far_agent
                   Scenario.member_url Scenario.grow_world)))
    = Ok (PList found)
    /\ In (PDict (obj (fst (get_processing Scenario.eval_grow Scenario.far_agent
                              Scenario.member_url Scenario.grow_world))))
          found
    /\ obj (fst (get_processing Scenario.eval_grow Scenario.far_agent
                   Scenario.member_url Scenario.grow_world))
       = stringify (obj Scenario.grow_world).
Proof.
  apply (get_processing_then_lookup_by_type Scenario.eval_grow Scenario.far_agent
           Scenario.member_url Scenario.grow_world
           (PStr "/api/Drone/1") (PStr "Drone") None).
  - vm_compute. reflexivity.
  - vm_compute. discriminate.
  - reflexivity.
  - reflexivity.
  - discriminate.
Defined.

Lemma get_processing_undocumented_class_witness :
  snd (get_processing Scenario.eval_grow Scenario.far_agent
         Scenario.member_url Cases.robot_world)
  = Raise (KeyError "Robot")
  /\ g_next (store (fst (get_processing Scenario.eval_grow Scenario.far_agent
                           Scenario.member_url Cases.robot_world)))
     = S (g_next (store Cases.robot_world))
  /\ In (mkNode (g_next (store Cases.robot_world)) ("objects" ++ "Robot")
                ("Robot" ++ nth 5 (url_segments Scenario.far_agent
                                     Scenario.member_url) EmptyString)
                (props_of_dict (stringify (obj Cases.robot_world))))
        (g_nodes (store (fst (get_processing Scenario.eval_grow
                                Scenario.far_agent Scenario.member_url
                                Cases.robot_world))))
  /\ obj (fst (get_processing Scenario.eval_grow Scenario.far_agent
                 Scenario.member_url Cases.robot_world))
     = stringify (obj Cases.robot_world).
Proof.
  apply (get_processing_undocumented_class Scenario.eval_grow Scenario.far_agent
           Scenario.member_url Cases.robot_world
           (PStr "/api/Robot/1") (PStr "Robot")).
  - vm_compute. reflexivity.
  - vm_compute. discriminate.
  - reflexivity.
  - reflexivity.
  - reflexivity.
Defined.

Lemma get_processing_member_untouched_iff_witness :
  fst (get_processing Scenario.eval_grow Scenario.far_agent
         Scenario.member_url Cases.no_owner_world)
  = Cases.no_owner_world
  /\ exists e : exn,
      snd (get_processing Scenario.eval_grow Scenario.far_agent
             Scenario.member_url Cases.no_owner_world) = Raise e.
Proof.
  destruct (get_processing_member_untouched_iff Scenario.eval_grow
              Scenario.far_agent Scenario.member_url Cases.no_owner_world
              ltac:(vm_compute; reflexivity)) as [Hiff Hraise].
  assert (Hw : fst (get_processing Scenario.eval_grow Scenario.far_agent
                      Scenario.member_url Cases.no_owner_world)
               = Cases.no_owner_world).
  { apply (proj2 Hiff). left. vm_compute. reflexivity. }
  exact (conj Hw (Hraise Hw)).
Defined.

Lemma get_processing_stringifies_payload_witness :
  obj (fst (get_processing Scenario.eval_refs Scenario.far_agent
              Scenario.member_url Cases.short_id_world))
  = stringify (obj Cases.short_id_world)
  /\ dict_get "height"
       (obj (fst (get_processing Scenario.eval_refs Scenario.far_agent
                    Scenario.member_url Cases.short_id_world)))
     = Some (PStr "7").
Proof.
  destruct (get_processing_stringifies_payload Scenario.eval_refs
              Scenario.far_agent Scenario.member_url Cases.short_id_world
              (PList [PDict [("parent_id", PStr "/1");
                             ("parent_type", PStr "Drone");
                             ("embedded_url", PStr "vocab:State")]])
              ltac:(vm_compute; reflexivity) ltac:(vm_compute; reflexivity))
    as [Hobj _].
  split; [exact Hobj |]. rewrite Hobj. reflexivity.
Defined.

Lemma get_processing_adds_a_node_witness :
  length (g_nodes (store (fst (get_processing Scenario.eval_grow
                                 Scenario.far_agent Scenario.member_url
                                 Scenario.grow_world))))
  = S (length (g_nodes (store Scenario.grow_world)))
  /\ length (find_all "" [("id", "/api/Drone/1")]
               (store (fst (get_processing Scenario.eval_grow
                              Scenario.far_agent Scenario.member_url
                              Scenario.grow_world))))
     = S (length (find_all "" [("id", "/api/Drone/1")]
                    (store Scenario.grow_world))).
Proof.
  apply (get_processing_adds_a_node Scenario.eval_grow Scenario.far_agent
           Scenario.member_url Scenario.grow_world
           (PStr "/api/Drone/1") (PStr "Drone")).
  - vm_compute. reflexivity.
  - vm_compute. discriminate.
  - reflexivity.
  - reflexivity.
  - reflexivity.
  - reflexivity.
Defined.

Lemma get_processing_collection_overwrites_witness :
  snd (get_processing Scenario.eval_refs Scenario.agent Cases.collection_url
         Cases.collection_world) = Ok (PList [])
  /\ forall p : props,
      In p (find_all ":collection"
              [("id", collection_id Scenario.agent Cases.collection_url)]
              (store (fst (get_processing Scenario.eval_refs Scenario.agent
                             Cases.collection_url Cases.collection_world)))) ->
      dict_get "members" p = Some (py_str Cases.listed).
Proof.
  destruct (get_processing_collection_overwrites Scenario.eval_refs
              Scenario.agent Cases.collection_url Cases.collection_world
              Cases.listed ltac:(vm_compute; reflexivity) eq_refl)
    as [Hret [_ [_ [_ Hall]]]].
  exact (conj Hret Hall).
Defined.

Lemma get_processing_collection_idempotent_witness :
  get_processing Scenario.eval_refs Scenario.agent Cases.collection_url
    (fst (get_processing Scenario.eval_refs Scenario.agent Cases.collection_url
            Cases.collection_world))
  = get_processing Scenario.eval_refs Scenario.agent Cases.collection_url
      Cases.collection_world.
Proof.
  exact (get_processing_collection_idempotent Scenario.eval_refs Scenario.agent
           Cases.collection_url Cases.collection_world
           ltac:(vm_compute; reflexivity)).
Defined.

Lemma get_processing_collection_without_members_witness :
  get_processing Scenario.eval_refs Scenario.agent Cases.collection_url
    Cases.no_members_world
  = (Cases.no_members_world, Raise (KeyError "members")).
Proof.
  exact (get_processing_collection_without_members Scenario.eval_refs
           Scenario.agent Cases.collection_url Cases.no_members_world
           ltac:(vm_compute; reflexivity) eq_refl).
Defined.

Lemma get_resource_ignores_trailing_slash_witness :
  get_resource Scenario.agent (Some (Scenario.member_url ++ "/"))
    (Some Scenario.initial_graph) None [] Cases.three_drones
  = get_resource Scenario.agent (Some Scenario.member_url)
      (Some Scenario.initial_graph) None [] Cases.three_drones.
Proof.
  exact (get_resource_ignores_trailing_slash Scenario.agent Scenario.member_url
           (Some Scenario.initial_graph) None [] Cases.three_drones
           ltac:(discriminate)).
Defined.

Lemma get_resource_collection_is_a_miss_witness :
  get_resource Scenario.agent
    (Some "http://localhost:8080/api/DroneCollection/7")
    (Some Scenario.initial_graph) None [] Cases.three_drones
  = (Cases.three_drones, Ok PNone).
Proof.
  apply (get_resource_collection_is_a_miss Scenario.agent
           "http://localhost:8080/api/DroneCollection/7"
           Scenario.initial_graph None [] Cases.three_drones).
  - discriminate.
  - right. exists "DroneCollection". split; reflexivity.
Defined.

Lemma get_resource_single_segment_raises_witness :
  get_resource Scenario.agent (Some "Drone") (Some Scenario.initial_graph)
    None [] Cases.three_drones
  = (Cases.three_drones, Raise IndexError).
Proof.
  apply (get_resource_single_segment_raises Scenario.agent "Drone"
           Scenario.initial_graph None [] Cases.three_drones).
  - discriminate.
  - reflexivity.
  - reflexivity.
Defined.

Lemma get_resource_wants_a_single_node_witness :
  snd (get_resource Scenario.agent (Some Scenario.member_url)
         (Some Scenario.initial_graph) None [] Cases.three_drones)
  = Ok PNone.
Proof.
  apply (proj2 (get_resource_wants_a_single_node Scenario.agent
                  Scenario.member_url Scenario.initial_graph None []
                  Cases.three_drones "Drone"
                  ltac:(discriminate) eq_refl eq_refl eq_refl eq_refl)).
  vm_compute. discriminate.
Defined.


Lemma delete_processing_empties_members_witness :
  snd (delete_processing Cases.eval_unrelated Scenario.agent
         Scenario.member_url Cases.unrelated_world) = Ok PNone
  /\ forall p : props,
      In p (find_all ":collection"
              [("id", vocabulary Scenario.agent ++ ":" ++ "EntryPoint" ++ "/"
                        ++ "Drone")]
              (store (fst (delete_processing Cases.eval_unrelated Scenario.agent
                             Scenario.member_url Cases.unrelated_world)))) ->
      dict_get "members" p = Some (py_repr (PList [])).
Proof.
  destruct (delete_processing_empties_members Cases.eval_unrelated
              Scenario.agent Scenario.member_url Cases.unrelated_world
              "EntryPoint" "Drone" "1"
              ltac:(vm_compute; reflexivity)
              ltac:(vm_compute; discriminate)
              ltac:(vm_compute; discriminate)) as [Hret [_ Hall]].
  exact (conj Hret Hall).
Defined.

Lemma get_processing_member_resets_instances_witness :
  exists added : list props,
    find_all "" [("id", owning_collection_id Scenario.far_agent Scenario.member_url)]
             (store (fst (get_processing Scenario.eval_grow Scenario.far_agent
                            Scenario.member_url Scenario.grow_world)))
    = (map (dict_set "instances"
              (py_repr (PList [PDict [("@id", PStr "/api/Drone/1");
                                      ("@type", PStr "Drone")]])))
           (find_all "" [("id", owning_collection_id Scenario.far_agent
                                  Scenario.member_url)]
                     (store Scenario.grow_world))
       ++ added)%list.
Proof.
  apply (get_processing_member_resets_instances Scenario.eval_grow
           Scenario.far_agent Scenario.member_url Scenario.grow_world
           (PStr "/api/Drone/1") (PStr "Drone")).
  - vm_compute. reflexivity.
  - vm_compute. discriminate.
  - reflexivity.
  - reflexivity.
Defined.

Lemma put_processing_adds_id_key_witness :
  map fst (obj (fst (put_processing (Scenario.eval_table [PList []])
                       Scenario.far_agent Scenario.member_url
                       Scenario.create_world)))
  = (map fst (obj Scenario.create_world) ++ ["@id"])%list
  /\ dict_get "@id"
       (obj (fst (put_processing (Scenario.eval_table [PList []])
                    Scenario.far_agent Scenario.member_url
                    Scenario.create_world)))
     = Some (PStr (url_object_id Scenario.member_url)).
Proof.
  exact (put_processing_adds_id_key (Scenario.eval_table [PList []])
           Scenario.far_agent Scenario.member_url Scenario.create_world
           eq_refl).
Defined.

Lemma get_processing_then_lookup_by_url_witness :
  snd (get_resource Scenario.far_agent (Some Scenario.member_url)
         (Some Scenario.initial_graph) None []
         (fst (get_processing Scenario.eval_refs Scenario.far_agent
                 Scenario.member_url Cases.short_id_world)))
  = Ok (PDict (stringify (obj Cases.short_id_world))).
Proof.
  apply (get_processing_then_lookup_by_url Scenario.eval_refs Scenario.far_agent
           Scenario.member_url Cases.short_id_world (PStr "Drone")
           Scenario.initial_graph "Drone").
  - vm_compute. reflexivity.
  - vm_compute. discriminate.
  - reflexivity.
  - reflexivity.
  - reflexivity.
  - reflexivity.
  - reflexivity.
  - discriminate.
  - reflexivity.
  - reflexivity.
  - reflexivity.
  - reflexivity.
Defined.

Lemma delete_processing_without_collection_witness :
  delete_processing Scenario.eval_refs Scenario.agent Scenario.member_url
    Cases.three_drones
  = (mkWorld (delete_nodes "" [("id", url_object_id Scenario.member_url)]
                (store Cases.three_drones))
             (obj Cases.three_drones) (log Cases.three_drones),
     Raise TypeError).
Proof.
  exact (delete_processing_without_collection Scenario.eval_refs Scenario.agent
           Scenario.member_url Cases.three_drones "EntryPoint" "Drone" "1"
           ltac:(vm_compute; reflexivity) ltac:(vm_compute; reflexivity)).
Defined.
